(** * A shallow embedding of pyasana's request and pagination core

    This development models [src/pyasana/client.py]: the option layering
    ([_merge], [Client._merge_options]), the request executor with its retry
    loop ([Client.request]), the query construction of [Client.get], the
    dispatch of [Client.get_collection], the page iterator ([_PageIterator])
    and the item generator ([Client._get_item_iterator]).

    Python semantics follow current CPython 3 (in particular PEP 479: a
    [StopIteration] raised inside a generator body becomes a [RuntimeError]).
    A Python [float] is an IEEE 754 binary64 number: Rocq's primitive
    [float], whose operations round as CPython's do.
    The error classes of [pyasana.error] are not part of the sources at hand;
    their status table is modelled from the specification (section 7). *)

#[local] Set Warnings "-register-all".
#[local] Set Warnings "-inexact-float".
From Stdlib Require Import ZArith Floats.
From stdpp Require Import base gmap strings list.

Open Scope Z_scope.

(** ** Python values

    JSON documents decode to the same values, so one type covers option
    values, query parameters and response bodies. A Python [dict] with
    string keys is a [gmap string pyval]. *)
Inductive pyval :=
| PNone
| PBool (b : bool)
| PInt (z : Z)
| PFloat (f : float)
| PStr (s : string)
| PList (l : list pyval)
| PDict (d : gmap string pyval).

Abbreviation dict := (gmap string pyval).

(** ** Error classes (modelled from the spec, section 7)

    Modelled from the spec: the module [pyasana.error] is missing; its
    classes are the kinds of the status table of section 7, and a
    [RateLimitEnforcedError] carries the server's [retry_after]. *)
Inductive errkind :=
| InvalidRequestError
| NoAuthorizationError
| ForbiddenError
| NotFoundError
| PreconditionFailedError
| RateLimitEnforcedError
| ServerError.

(** A transport response: status, decoded JSON body and the wait (seconds)
    the server reports for a rate limit ([float(Retry-After)]). *)
Record response := {
  status_code : Z;
  json_body : pyval;
  resp_retry_after : float
}.

(** Exceptions that can leave the modelled code. *)
Inductive exn :=
| AsanaError (k : errkind) (r : response)
| TypeError
| KeyError
| AttributeError
| ValueError
| OverflowError
| IndexError
| NameError
| RuntimeError
| StopIteration.

(** Modelled from the spec: [STATUS_MAP], which [client.py] builds by
    scanning [pyasana.error] for [AsanaError] subclasses, keyed by status. *)
Definition STATUS_MAP (status : Z) : option errkind :=
  match status with
  | 400 => Some InvalidRequestError
  | 401 => Some NoAuthorizationError
  | 403 => Some ForbiddenError
  | 404 => Some NotFoundError
  | 409 => Some InvalidRequestError
  | 412 => Some PreconditionFailedError
  | 429 => Some RateLimitEnforcedError
  | 500 | 502 | 503 | 504 => Some ServerError
  | _ => None
  end.

(** Modelled from the spec: subclasses of [RetryableAsanaError]. *)
Definition is_retryable (k : errkind) : bool :=
  match k with
  | RateLimitEnforcedError | ServerError => true
  | _ => false
  end.

Definition is_rate_limit (k : errkind) : bool :=
  match k with RateLimitEnforcedError => true | _ => false end.

(** ** A small error monad for straight-line Python code *)
Inductive res (A : Type) :=
| Ok (a : A)
| Exc (e : exn).
Arguments Ok {A} a.
Arguments Exc {A} e.

Global Instance res_ret : MRet res := fun A a => Ok a.
Global Instance res_bind : MBind res := fun A B f m =>
  match m with Ok a => f a | Exc e => Exc e end.

(** ** Python operations on values *)

(** [d[k]] on a dict. *)
Definition dict_getitem (d : dict) (k : string) : res pyval :=
  match d !! k with Some v => Ok v | None => Exc KeyError end.

(** [v[k]] with a string subscript. *)
Definition getitem (v : pyval) (k : string) : res pyval :=
  match v with
  | PDict d => dict_getitem d k
  | _ => Exc TypeError
  end.

(** [v.get(k, default)]: only dicts have a [get] method. *)
Definition py_dict_get (v : pyval) (k : string) (dflt : pyval) : res pyval :=
  match v with
  | PDict d => Ok (from_option id dflt (d !! k))
  | _ => Exc AttributeError
  end.

(** Truth value of [v] in an [if]. *)
Definition truthy (v : pyval) : bool :=
  match v with
  | PNone => false
  | PBool b => b
  | PInt z => negb (z =? 0)
  | PFloat f => negb (f =? 0)%float
  | PStr s => negb (String.eqb s "")
  | PList l => negb (bool_decide (l = []))
  | PDict d => negb (bool_decide (d = ∅))
  end.

(** [v == True] ([bool] is a subclass of [int] in Python). *)
Definition py_eq_true (v : pyval) : bool :=
  match v with
  | PBool b => b
  | PInt z => z =? 1
  | PFloat f => (f =? 1)%float
  | _ => false
  end.

(** [v == False]. *)
Definition py_eq_false (v : pyval) : bool :=
  match v with
  | PBool b => negb b
  | PInt z => z =? 0
  | PFloat f => (f =? 0)%float
  | _ => false
  end.

(** [v == s] for a string literal [s]. *)
Definition py_eq_str (v : pyval) (s : string) : bool :=
  match v with PStr s' => String.eqb s' s | _ => false end.

(** [v == None]. *)
Definition py_is_none (v : pyval) : bool :=
  match v with PNone => true | _ => false end.

(** The integer value of an [int] or a [bool]. *)
Definition py_int (v : pyval) : option Z :=
  match v with
  | PBool b => Some (Z.b2z b)
  | PInt z => Some z
  | _ => None
  end.

(** A number operand of an arithmetic operator. *)
Inductive num :=
| NInt (z : Z)
| NFloat (f : float).

Definition to_num (v : pyval) : option num :=
  match v with
  | PBool b => Some (NInt (Z.b2z b))
  | PInt z => Some (NInt z)
  | PFloat f => Some (NFloat f)
  | _ => None
  end.

(** [float(z)] for the [int] operand of a mixed operation: the nearest
    double (ties to even); an [int] beyond the double range raises
    [OverflowError]. *)
Definition float_of_Z (z : Z) : res float :=
  let f := SF2Prim (SpecFloat.binary_normalize prec emax z 0 false) in
  if PrimFloat.is_infinity f then Exc OverflowError else Ok f.

(** An arithmetic operator on two numbers: [int] with [int] stays exact,
    otherwise the [int] operand is converted and the float operation
    rounds. *)
Definition num_arith (zop : Z -> Z -> Z) (fop : float -> float -> float) (x y : num)
    : res pyval :=
  match x, y with
  | NInt a, NInt b => Ok (PInt (zop a b))
  | NFloat a, NFloat b => Ok (PFloat (fop a b))
  | NInt a, NFloat b => a' ← float_of_Z a; Ok (PFloat (fop a' b))
  | NFloat a, NInt b => b' ← float_of_Z b; Ok (PFloat (fop a b'))
  end.

(** [a + b]. *)
Definition py_add (a b : pyval) : res pyval :=
  match a, b with
  | PStr s, PStr t => Ok (PStr (String.append s t))
  | PList l, PList m => Ok (PList (l ++ m))
  | _, _ =>
      match to_num a, to_num b with
      | Some x, Some y => num_arith Z.add PrimFloat.add x y
      | _, _ => Exc TypeError
      end
  end.

(** The number of copies in [seq * n]: none for [n <= 0]; a count beyond a
    C [Py_ssize_t] raises [OverflowError]. (Running out of memory for a
    huge repetition is not modelled.) *)
Definition repeat_count (n : Z) : res nat :=
  if (n <? - 2 ^ 63) || (2 ^ 63 - 1 <? n) then Exc OverflowError else Ok (Z.to_nat n).

Fixpoint str_repeat (k : nat) (s : string) : string :=
  match k with
  | O => ""
  | S k' => String.append s (str_repeat k' s)
  end.

(** [a * b]: sequence repetition when one operand is a [str] or a [list] and
    the other an [int] (or [bool]), else arithmetic. *)
Definition py_mul (a b : pyval) : res pyval :=
  match a, b with
  | PStr s, _ | _, PStr s =>
      let n := match a with PStr _ => py_int b | _ => py_int a end in
      match n with
      | Some n => k ← repeat_count n; Ok (PStr (str_repeat k s))
      | None => Exc TypeError
      end
  | PList l, _ | _, PList l =>
      let n := match a with PList _ => py_int b | _ => py_int a end in
      match n with
      | Some n => k ← repeat_count n; Ok (PList (concat (replicate k l)))
      | None => Exc TypeError
      end
  | _, _ =>
      match to_num a, to_num b with
      | Some x, Some y => num_arith Z.mul PrimFloat.mul x y
      | _, _ => Exc TypeError
      end
  end.

(** [2 ^ 63] nanoseconds, the bound of CPython's [_PyTime_t]. *)
Definition PY_TIME_BOUND : Z := 2 ^ 63.

(** [time.sleep(v)]. CPython converts the wait to [_PyTime_t] nanoseconds
    first: an [int] [z] raises [OverflowError] unless [z * 10^9] fits in a
    signed 64-bit integer; for a [float] [f] the product [f * 1e9] is
    rounded to a double and must lie in [[-2^63, 2^63)] (its rounding to an
    integer cannot leave that range), else [OverflowError], and a NaN
    raises [ValueError] (CPython tests NaN first; a NaN fails the range test,
    so testing it second gives the same result). A wait that converts but
    is negative raises [ValueError]; anything that is not a number raises
    [TypeError]. *)
Definition py_sleep (v : pyval) : res unit :=
  match v with
  | PBool _ => Ok tt
  | PInt z =>
      if (z * 10 ^ 9 <? - PY_TIME_BOUND) || (PY_TIME_BOUND - 1 <? z * 10 ^ 9)
      then Exc OverflowError
      else if z <? 0 then Exc ValueError else Ok tt
  | PFloat f =>
      let ns := (f * 1e9)%float in
      if (-9223372036854775808 <=? ns)%float && (ns <? 9223372036854775808)%float then
        if (ns <? 0)%float then Exc ValueError else Ok tt
      else if PrimFloat.is_nan f then Exc ValueError
      else Exc OverflowError
  | _ => Exc TypeError
  end.

(** ** Option layering *)

(** [_merge( *objects)]: [result.update(obj)] for each object in turn. *)
Definition _merge (objects : list dict) : dict :=
  fold_left (fun result obj => obj ∪ result) objects ∅.

Record client := { client_options : dict }.

Definition DEFAULT_LIMIT : Z := 100.

Definition DEFAULTS : dict :=
  list_to_map [("base_url", PStr "https://app.asana.com/api/1.0");
               ("limit", PInt DEFAULT_LIMIT);
               ("poll_interval", PInt 5);
               ("retries", PInt 5);
               ("retry_delay", PFloat 1.0);
               ("retry_backoff", PFloat 2.0);
               ("full_payload", PBool false);
               ("iterator_type", PStr "pages")].

(** [Client( **options)]: [self.options = _merge(self.DEFAULTS, options)]. *)
Definition Client (options : dict) : client :=
  {| client_options := _merge [DEFAULTS; options] |}.

(** [self._merge_options( *objects)]. *)
Definition _merge_options (self : client) (objects : list dict) : dict :=
  _merge (client_options self :: objects).

(** [self._select_options(options, keys)]. *)
Definition _select_options (self : client) (options : dict) (keys : list string) : dict :=
  let options := _merge_options self [options] in
  list_to_map (omap (fun key => (fun v => (key, v)) <$> options !! key) keys).

(** ** Request executor *)

Definition json_dumps_bool (b : bool) : pyval :=
  PStr (if b then "true" else "false").

(** [l[x]] on a list: [x] must be an [int] (or [bool]); a negative index
    counts from the end. *)
Definition list_index (l : list pyval) (x : pyval) : res nat :=
  match py_int x with
  | None => Exc TypeError
  | Some z =>
      let i := if z <? 0 then z + Z.of_nat (length l) else z in
      if (0 <=? i) && (i <? Z.of_nat (length l)) then Ok (Z.to_nat i) else Exc IndexError
  end.

(** [for key in params] over a list, from position [i]: each step reads the
    element at [i] as the list is then (an earlier step may have replaced
    it), and uses it as an index. The list keeps its length, so [fuel] set to
    that length suffices. *)
Fixpoint dump_bool_list (fuel i : nat) (l : list pyval) : res (list pyval) :=
  match fuel with
  | O => Ok l
  | S fuel' =>
      match l !! i with
      | None => Ok l
      | Some key =>
          j ← list_index l key;
          match l !! j with
          | Some (PBool b) => dump_bool_list fuel' (S i) (<[j := json_dumps_bool b]> l)
          | _ => dump_bool_list fuel' (S i) l
          end
      end
  end.

(** The loop of [_parse_request_options] over [params]: every [params[key]]
    that is a [bool] is replaced by its JSON text. A dict is iterated over
    its keys; a list over its elements, each used as an index; a string over
    its characters, and a string index raises [TypeError] (so only the empty
    string passes); any other value is not iterable. *)
Definition dump_bool_params (params : pyval) : res pyval :=
  match params with
  | PDict d =>
      Ok (PDict ((fun v => match v with PBool b => json_dumps_bool b | _ => v end) <$> d))
  | PList l => l' ← dump_bool_list (length l) 0 l; Ok (PList l')
  | PStr s => if String.eqb s "" then Ok params else Exc TypeError
  | _ => Exc TypeError
  end.

(** [self._parse_request_options(options)]. *)
Definition _parse_request_options (self : client) (options : dict) : res dict :=
  let request_options := _select_options self options ["headers"; "params"; "data"] in
  match request_options !! "params" with
  | None => Ok request_options
  | Some params =>
      params' ← dump_bool_params params;
      Ok (<["params" := params']> request_options)
  end.

(** What a call [f(..., **options)] does when [options] repeats a named
    parameter of [f]: it raises [TypeError]. *)
Definition kwargs_clash (names : list string) (options : dict) : bool :=
  existsb (fun n => bool_decide (is_Some (options !! n))) names.

(** The value of the local [retries] after line 46: [float('inf')] or the
    option itself. [float('inf') > 0] holds and [float('inf') - 1] is
    [float('inf')]. *)
Inductive counter :=
| Inf
| Fin (v : pyval).

(** [retries > 0]. *)
Definition retries_gt0 (c : counter) : res bool :=
  match c with
  | Inf => Ok true
  | Fin (PBool b) => Ok b
  | Fin (PInt z) => Ok (0 <? z)
  | Fin (PFloat f) => Ok (0 <? f)%float
  | Fin _ => Exc TypeError
  end.

(** [retries -= 1]. *)
Definition retries_dec (c : counter) : res counter :=
  match c with
  | Inf => Ok Inf
  | Fin (PBool b) => Ok (Fin (PInt (Z.b2z b - 1)))
  | Fin (PInt z) => Ok (Fin (PInt (z - 1)))
  | Fin (PFloat f) => Ok (Fin (PFloat (f - 1)%float))
  | Fin _ => Exc TypeError
  end.

(** What [request] has computed before entering [while True]. *)
Record request_cfg := {
  rc_method : string;
  rc_url : pyval;
  rc_options : dict;
  rc_request_options : dict
}.

(** Observable effects: a transport call and a [time.sleep]. *)
Inductive event :=
| Send (method : string) (url : pyval) (request_options : dict)
| Sleep (secs : pyval).

(** How a computation that talks to the transport ends. [Pending] means the
    code issues one more transport call than the responses supplied. *)
Inductive outcome (A : Type) :=
| Done (a : A)
| Raised (e : exn)
| Pending.
Arguments Done {A} a.
Arguments Raised {A} e.
Arguments Pending {A}.

Definition of_res {A} (r : res A) : outcome A :=
  match r with Ok a => Done a | Exc e => Raised e end.

(** The [while True] loop of [Client.request]. The transport is the list of
    responses the server gives to successive calls. *)
Fixpoint request_loop (rc : request_cfg) (retries : counter) (retry_delay : pyval)
    (rs : list response) : outcome pyval * list event * list response :=
  match rs with
  | [] => (Pending, [], [])
  | response :: rs' =>
      let send := Send (rc_method rc) (rc_url rc) (rc_request_options rc) in
      let '(o, tr, rest) :=
        match STATUS_MAP (status_code response) with
        | None =>
            (of_res (fp ← dict_getitem (rc_options rc) "full_payload";
                     if truthy fp then Ok (json_body response)
                     else getitem (json_body response) "data"), [], rs')
        | Some k =>
            if is_retryable k then
              match retries_gt0 retries with
              | Exc e => (Raised e, [], rs')
              | Ok false => (Raised (AsanaError k response), [], rs')
              | Ok true =>
                  match retries_dec retries with
                  | Exc e => (Raised e, [], rs')
                  | Ok retries' =>
                      if is_rate_limit k then
                        let secs := PFloat (resp_retry_after response) in
                        match py_sleep secs with
                        | Exc e => (Raised e, [], rs')
                        | Ok _ =>
                            let '(o, tr, rest) := request_loop rc retries' retry_delay rs' in
                            (o, Sleep secs :: tr, rest)
                        end
                      else
                        match py_sleep retry_delay with
                        | Exc e => (Raised e, [], rs')
                        | Ok _ =>
                            match (b ← dict_getitem (rc_options rc) "retry_backoff";
                                   py_mul retry_delay b) with
                            | Exc e => (Raised e, [Sleep retry_delay], rs')
                            | Ok retry_delay' =>
                                let '(o, tr, rest) := request_loop rc retries' retry_delay' rs' in
                                (o, Sleep retry_delay :: tr, rest)
                            end
                        end
                  end
              end
            else (Raised (AsanaError k response), [], rs')
        end in
      (o, send :: tr, rest)
  end.

(** Lines 44-48 of [Client.request]. *)
Definition request_setup (self : client) (method : string) (path : pyval) (options : dict)
    : res (request_cfg * counter * pyval) :=
  let options := _merge_options self [options] in
  base_url ← dict_getitem options "base_url";
  url ← py_add base_url path;
  r ← dict_getitem options "retries";
  let retries := if py_eq_true r then Inf else Fin r in
  retry_delay ← dict_getitem options "retry_delay";
  request_options ← _parse_request_options self options;
  Ok ({| rc_method := method; rc_url := url; rc_options := options;
         rc_request_options := request_options |}, retries, retry_delay).

(** [self.request(method, path, **options)]. *)
Definition request (self : client) (method : string) (path : pyval) (options : dict)
    (rs : list response) : outcome pyval * list event * list response :=
  match request_setup self method path options with
  | Exc e => (Raised e, [], rs)
  | Ok (rc, retries, retry_delay) => request_loop rc retries retry_delay rs
  end.

(** [','.join(l)]. *)
Fixpoint join_strs (l : list pyval) : res string :=
  match l with
  | [] => Ok ""
  | [PStr s] => Ok s
  | PStr s :: l' => t ← join_strs l'; Ok (String.append s (String.append "," t))
  | _ :: _ => Exc TypeError
  end.

Definition api_keys : list string := ["pretty"; "fields"; "expand"].

(** [self._parse_api_options(options, query_string)]. *)
Definition _parse_api_options (self : client) (options : dict) (query_string : bool) : res dict :=
  let api_options := _select_options self options api_keys in
  if query_string then
    fold_left (fun acc key =>
        query_api_options ← acc;
        match api_options !! key with
        | None => Ok query_api_options
        | Some (PList l) =>
            s ← join_strs l;
            Ok (<[String.append "opt_" key := PStr s]> query_api_options)
        | Some v => Ok (<[String.append "opt_" key := v]> query_api_options)
        end) api_keys (Ok ∅)
  else Ok api_options.

(** [self._parse_query_options(options)]. *)
Definition _parse_query_options (self : client) (options : dict) : dict :=
  _select_options self options ["limit"; "offset"; "sync"].

(** Lines 72-74 of [Client.get]: the query it sends as [params]. *)
Definition get_query (self : client) (query : dict) (options : dict) : res dict :=
  api_options ← _parse_api_options self options true;
  let query_options := _parse_query_options self options in
  Ok (_merge [query_options; api_options; query]).

(** [self.get(path, query, **options)]. *)
Definition get (self : client) (path : pyval) (query : dict) (options : dict)
    (rs : list response) : outcome pyval * list event * list response :=
  match get_query self query options with
  | Exc e => (Raised e, [], rs)
  | Ok query =>
      if kwargs_clash ["self"; "method"; "path"; "params"] options
      then (Raised TypeError, [], rs)
      else request self "get" path (<["params" := PDict query]> options) rs
  end.

(** ** Observations on traces *)

Definition is_send (e : event) : bool :=
  match e with Send _ _ _ => true | Sleep _ => false end.

Definition count_sends (tr : list event) : nat := length (List.filter is_send tr).

Definition sleeps (tr : list event) : list pyval :=
  omap (fun e => match e with Sleep v => Some v | Send _ _ _ => None end) tr.

(** A response the error table classifies as retryable. *)
Definition is_retryable_status (s : Z) : bool :=
  match STATUS_MAP s with Some k => is_retryable k | None => false end.

Definition retried (r : response) : Prop :=
  is_retryable_status (status_code r) = true.

Definition is_rate_limit_status (s : Z) : bool :=
  match STATUS_MAP s with Some k => is_rate_limit k | None => false end.

Arguments py_sleep : simpl never.


(** The schedule of retry waits for the responses [rs], the current delay
    being [d]: a rate-limit retry waits the reported [retry_after]; any
    other retry waits [d], and the next delay is the double nearest to
    [d * b] (the product [delay × retry_backoff], rounded). *)
Fixpoint backoff_schedule (d b : float) (rs : list response) : list float :=
  match rs with
  | [] => []
  | r :: rs' =>
      if is_rate_limit_status (status_code r)
      then resp_retry_after r :: backoff_schedule d b rs'
      else d :: backoff_schedule (d * b)%float b rs'
  end.

(** [time.sleep] accepts each of the waits [ws]. *)
Definition sleeps_accepted (ws : list float) : Prop :=
  Forall (fun w => py_sleep (PFloat w) = Ok tt) ws.

(** ** Collections *)

(** [client.get(path, query, **options)] at a call site: a keyword in
    [options] that repeats a named parameter of [get] raises [TypeError]. *)
Definition call_get (self : client) (path : pyval) (query : dict) (options : dict)
    (rs : list response) : outcome pyval * list event * list response :=
  if kwargs_clash ["self"; "path"; "query"] options then (Raised TypeError, [], rs)
  else get self path query options rs.

(** The attributes of a [_PageIterator] object. *)
Record page_iter := {
  pi_client : client;
  pi_path : pyval;
  pi_query : dict;
  pi_options : dict;
  pi_next_page : pyval
}.

(** [_PageIterator(client, path, query, options)]. *)
Definition _PageIterator (client0 : client) (path : pyval) (query : dict) (options : dict)
    : page_iter :=
  {| pi_client := client0; pi_path := path; pi_query := query;
     pi_options := _merge [options; {["full_payload" := PBool true]}];
     pi_next_page := PBool false |}.

Definition set_pi_options (it : page_iter) (options : dict) : page_iter :=
  {| pi_client := pi_client it; pi_path := pi_path it; pi_query := pi_query it;
     pi_options := options; pi_next_page := pi_next_page it |}.

Definition set_pi_next_page (it : page_iter) (next_page : pyval) : page_iter :=
  {| pi_client := pi_client it; pi_path := pi_path it; pi_query := pi_query it;
     pi_options := pi_options it; pi_next_page := next_page |}.

(** Lines 166-170 of [_PageIterator.__next__], run when [self.next_page]
    is not [None]: choose the target, drop [offset] when following a
    cursor, and call [get]. Returns the mutated object and what [get] gave. *)
Definition page_fetch (it : page_iter) (rs : list response)
    : page_iter * outcome pyval * list event * list response :=
  let '(it1, target) :=
    if py_eq_false (pi_next_page it)
    then (it, Ok (pi_path it, pi_query it))
    else (set_pi_options it (delete "offset" (pi_options it)),
          p ← getitem (pi_next_page it) "path"; Ok (p, ∅)) in
  match target with
  | Exc e => (it1, Raised e, [], rs)
  | Ok (p, q) =>
      let '(o, tr, rest) := call_get (pi_client it1) p q (pi_options it1) rs in
      (it1, o, tr, rest)
  end.

(** [_PageIterator.__next__]. The object is mutated in place, so the new
    state is returned also when an exception leaves the method. *)
Definition page_next (it : page_iter) (rs : list response)
    : outcome pyval * page_iter * list event * list response :=
  if py_is_none (pi_next_page it) then (Raised StopIteration, it, [], rs)
  else
    let '(it1, o, tr, rest) := page_fetch it rs in
    match o with
    | Raised e => (Raised e, it1, tr, rest)
    | Pending => (Pending, it1, tr, rest)
    | Done result =>
        match py_dict_get result "next_page" PNone with
        | Exc e => (Raised e, it1, tr, rest)
        | Ok next_page =>
            (of_res (getitem result "data"), set_pi_next_page it1 next_page, tr, rest)
        end
    end.

(** [n] successive calls of [__next__] (or fewer, up to the first one
    that does not return a page): the pages, how the last call ended, the
    final state, the trace and the unused responses. *)
Fixpoint page_steps (n : nat) (it : page_iter) (rs : list response)
    : list pyval * outcome unit * page_iter * list event * list response :=
  match n with
  | O => ([], Done tt, it, [], rs)
  | S n' =>
      match page_next it rs with
      | (Done page, it', tr, rest) =>
          let '(pages, fin, it'', tr', rest') := page_steps n' it' rest in
          (page :: pages, fin, it'', tr ++ tr', rest')
      | (Raised e, it', tr, rest) => ([], Raised e, it', tr, rest)
      | (Pending, it', tr, rest) => ([], Pending, it', tr, rest)
      end
  end.

(** [for item in page]: the items a page yields. A dict yields its keys;
    Python gives them in insertion order (the order of the JSON text),
    which the map does not keep: here they come in the map's order. *)
Definition py_iter (v : pyval) : res (list pyval) :=
  match v with
  | PList l => Ok l
  | PStr s => Ok (map (fun a => PStr (String.String a String.EmptyString)) (String.list_ascii_of_string s))
  | PDict d => Ok (map (fun kv => PStr kv.1) (map_to_list d))
  | _ => Exc TypeError
  end.

(** Running the generator of [Client._get_item_iterator] to its end, for at
    most [fuel] pages: the items yielded, then how the generator ends. When
    the page iterator signals [StopIteration] the [for] loop ends and the
    body executes [raise StopIteration], which PEP 479 turns into
    [RuntimeError] for the consumer. *)
Fixpoint items_run (fuel : nat) (it : page_iter) (rs : list response)
    : list pyval * outcome unit * list event * list response :=
  match fuel with
  | O => ([], Pending, [], rs)
  | S fuel' =>
      match page_next it rs with
      | (Raised StopIteration, _, tr, rest) => ([], Raised RuntimeError, tr, rest)
      | (Raised e, _, tr, rest) => ([], Raised e, tr, rest)
      | (Pending, _, tr, rest) => ([], Pending, tr, rest)
      | (Done page, it', tr, rest) =>
          match py_iter page with
          | Exc e => ([], Raised e, tr, rest)
          | Ok items =>
              let '(ys, fin, tr', rest') := items_run fuel' it' rest in
              (items ++ ys, fin, tr ++ tr', rest')
          end
      end
  end.

(** What [get_collection] returns. The item generator holds the page
    iterator its body creates when it first runs. *)
Inductive collection :=
| PageIterator (it : page_iter)
| ItemIterator (it : page_iter)
| Data (v : pyval).

(** [self.get_collection(path, query, **options)]. *)
Definition get_collection (self : client) (path : pyval) (query : dict) (options : dict)
    (rs : list response) : outcome collection * list event * list response :=
  let options := _merge_options self [options] in
  match dict_getitem options "iterator_type" with
  | Exc e => (Raised e, [], rs)
  | Ok iterator_type =>
      if py_eq_str iterator_type "pages" then
        if kwargs_clash ["self"; "path"; "query"] options then (Raised TypeError, [], rs)
        else (Done (PageIterator (_PageIterator self path query options)), [], rs)
      else if py_eq_str iterator_type "items" then
        if kwargs_clash ["self"; "path"; "query"] options then (Raised TypeError, [], rs)
        else (Done (ItemIterator (_PageIterator self path query options)), [], rs)
      else if py_is_none iterator_type then
        let '(o, tr, rest) := call_get self path query options rs in
        match o with
        | Done v => (Done (Data v), tr, rest)
        | Raised e => (Raised e, tr, rest)
        | Pending => (Pending, tr, rest)
        end
      else
        (* [raise Error(...)]: the name [Error] is not defined in the module *)
        (Raised NameError, [], rs)
  end.

(** ** Concrete servers used by the examples *)

Definition r500 : response :=
  {| status_code := 500; json_body := PNone; resp_retry_after := 0.0 |}.

(** A [200] response whose body is the envelope [{data, next_page}]. *)
Definition envelope (data : list pyval) (next_page : pyval) : response :=
  {| status_code := 200;
     json_body := PDict {["data" := PList data; "next_page" := next_page]};
     resp_retry_after := 0.0 |}.

Definition cursor_Y : pyval :=
  PDict {["path" := PStr "/tasks?offset=Y"; "offset" := PStr "Y"]}.

(** The two-page server of the spec: [[t1, t2]] with a cursor, then [[t3]]. *)
Definition two_pages : list response :=
  [envelope [PStr "t1"; PStr "t2"] cursor_Y; envelope [PStr "t3"] PNone].

(** The [offset] query parameter of a transport call, if any. *)
Definition sent_offset (e : event) : option pyval :=
  match e with
  | Send _ _ request_options =>
      match request_options !! "params" with
      | Some (PDict params) => params !! "offset"
      | _ => None
      end
  | Sleep _ => None
  end.

Definition sent_url (e : event) : option pyval :=
  match e with Send _ url _ => Some url | Sleep _ => None end.

(** The collection [get_collection] returns for [path], when it is an
    iterator. *)
Definition collection_iter (c : outcome collection * list event * list response)
    : option page_iter :=
  match c with
  | (Done (PageIterator it), _, _) | (Done (ItemIterator it), _, _) => Some it
  | _ => None
  end.

(** ** Fixtures used by the examples *)

Definition r429 : response :=
  {| status_code := 429; json_body := PNone; resp_retry_after := 30.0 |}.

(** A rate limit whose reported wait, [10^10] s, is beyond what
    [time.sleep] accepts. *)
Definition r429_1e10 : response :=
  {| status_code := 429; json_body := PNone; resp_retry_after := 1e10 |}.

Definition r418 : response :=
  {| status_code := 418; json_body := PDict {["data" := PList [PStr "t1"]]};
     resp_retry_after := 0.0 |}.

(** The configuration [request] computes for [Client()] and a [get] on
    ["/tasks"] with no call options. *)
Definition default_cfg : request_cfg :=
  {| rc_method := "get"; rc_url := PStr "https://app.asana.com/api/1.0/tasks";
     rc_options := _merge_options (Client ∅) [∅]; rc_request_options := ∅ |}.

(** The page iterator [get_collection] builds for [Client()] on ["/tasks"]. *)
Definition tasks_pages : page_iter :=
  _PageIterator (Client ∅) (PStr "/tasks") ∅ (_merge_options (Client ∅) [∅]).

(** How the item generator ends, given how the page iterator stopped. *)
Definition items_end (fin : outcome unit) : outcome unit :=
  match fin with
  | Raised StopIteration => Raised RuntimeError
  | Raised e => Raised e
  | Done _ => Pending
  | Pending => Pending
  end.

(** ** [post], [put] and helpers for stating properties *)

(** The value [_parse_request_options] sends for a parameter value. *)
Definition dump_bool (v : pyval) : pyval :=
  match v with PBool b => json_dumps_bool b | _ => v end.

(** [P] holds of every transport call of a trace. *)
Definition each_send (P : string -> pyval -> dict -> Prop) (tr : list event) : Prop :=
  Forall (fun e => match e with Send m url ro => P m url ro | Sleep _ => True end) tr.

(** The value [_parse_api_options] puts under ["opt_" + key] for a merged
    option value (before the [','.join] error is taken into account). *)
Definition api_value (ov : option pyval) : option pyval :=
  match ov with
  | Some (PList l) => match join_strs l with Ok s => Some (PStr s) | Exc _ => None end
  | _ => ov
  end.

(** [headers={'content-type': 'application/json'}]. *)
Definition content_type_json : dict := {["content-type" := PStr "application/json"]}.

(** [self.post(path, data, **options)]. [json.dumps] is a parameter of the
    model: what is proved holds for whatever text it produces. A keyword of
    [options] that repeats [data] or [headers] (or [self], [method], [path])
    in the call of [request] raises [TypeError]. *)
Definition post (json_dumps : pyval -> string) (self : client) (path data : pyval)
    (options : dict) (rs : list response) : outcome pyval * list event * list response :=
  let body : dict := {["data" := data]} in
  match _parse_api_options self options false with
  | Exc e => (Raised e, [], rs)
  | Ok api_options =>
      let body := if bool_decide (0 < size api_options)%nat
                  then <["options" := PDict api_options]> body else body in
      if kwargs_clash ["self"; "method"; "path"; "data"; "headers"] options
      then (Raised TypeError, [], rs)
      else request self "post" path
             (<["data" := PStr (json_dumps (PDict body))]>
                (<["headers" := PDict content_type_json]> options)) rs
  end.

(** [self.put(path, data, **options)]: the body of [post] with ['put']. *)
Definition put (json_dumps : pyval -> string) (self : client) (path data : pyval)
    (options : dict) (rs : list response) : outcome pyval * list event * list response :=
  let body : dict := {["data" := data]} in
  match _parse_api_options self options false with
  | Exc e => (Raised e, [], rs)
  | Ok api_options =>
      let body := if bool_decide (0 < size api_options)%nat
                  then <["options" := PDict api_options]> body else body in
      if kwargs_clash ["self"; "method"; "path"; "data"; "headers"] options
      then (Raised TypeError, [], rs)
      else request self "put" path
             (<["data" := PStr (json_dumps (PDict body))]>
                (<["headers" := PDict content_type_json]> options)) rs
  end.

(** The invariant the page iterator keeps over its steps. *)
Definition page_iter_inv (cl : client) (path : pyval) (query : dict) (it : page_iter) : Prop :=
  pi_client it = cl /\ pi_path it = path /\ pi_query it = query /\
  pi_options it !! "full_payload" = Some (PBool true).

(** A [404] response. *)
Definition r404 : response :=
  {| status_code := 404; json_body := PNone; resp_retry_after := 0.0 |}.

(** ** Lemmas on option layering *)

Lemma _merge_snoc (objects : list dict) (obj : dict) (k : string) :
  _merge (objects ++ [obj]) !! k =
    match obj !! k with Some v => Some v | None => _merge objects !! k end.
Proof.
  unfold _merge. rewrite fold_left_app. simpl.
  rewrite lookup_union. by destruct (obj !! k), (fold_left _ objects ∅ !! k).
Qed.

Lemma _merge_two (a b : dict) (k : string) :
  _merge [a; b] !! k = match b !! k with Some v => Some v | None => a !! k end.
Proof.
  change [a; b] with ([a] ++ [b]). rewrite _merge_snoc.
  unfold _merge. simpl. rewrite lookup_union, lookup_empty.
  by destruct (b !! k), (a !! k).
Qed.

(** ** Claim C4 *)

(** C4. Option merge is rightmost-wins shallow override: for the three tiers
    (defaults [D], client options [C], call options [Q]) the resolved set maps
    [k] to [Q[k]] if present, else to [C[k]], else to [D[k]], the value being
    taken whole (no deep merge of nested dicts). *)
Theorem merge_options_precedence (D C Q : dict) (k : string) :
  _merge_options {| client_options := _merge [D; C] |} [Q] !! k =
    match Q !! k with
    | Some v => Some v
    | None => match C !! k with Some v => Some v | None => D !! k end
    end.
Proof.
  unfold _merge_options. simpl. rewrite _merge_two, _merge_two. reflexivity.
Qed.

(** ** Lemmas on the request executor *)


(** Two facts on primitive float comparisons, from the specification of
    [leb], [ltb] and [eqb] in terms of [SpecFloat]. *)
Lemma float_le0 (f : float) :
  (f <=? 0)%float = true -> (0 <? f)%float = false /\ (f =? 1)%float = false.
Proof.
  rewrite FloatAxioms.leb_spec, FloatAxioms.ltb_spec, FloatAxioms.eqb_spec.
  change (Prim2SF 0) with (S754_zero false).
  change (Prim2SF 1) with (S754_finite false 4503599627370496 (-52)).
  intros H. destruct (Prim2SF f) as [[]|[]| |[] m e]; try discriminate H; split; reflexivity.
Qed.

Lemma float_lt0_bound (x : float) :
  (x <? 0)%float = true -> (x <? 9223372036854775808)%float = true.
Proof.
  rewrite !FloatAxioms.ltb_spec.
  change (Prim2SF 0) with (S754_zero false).
  change (Prim2SF 9223372036854775808) with (S754_finite false 4503599627370496 11).
  intros H. destruct (Prim2SF x) as [[]|[]| |[] m e]; try discriminate H; reflexivity.
Qed.

Lemma request_setup_ok (self : client) (m : string) (p : pyval) (o : dict)
    (rc : request_cfg) (c : counter) (d : pyval) :
  request_setup self m p o = Ok (rc, c, d) ->
  rc_options rc = _merge_options self [o] /\ rc_method rc = m /\
  (exists r, _merge_options self [o] !! "retries" = Some r /\
             c = if py_eq_true r then Inf else Fin r) /\
  _merge_options self [o] !! "retry_delay" = Some d.
Proof.
  unfold request_setup, dict_getitem. intros H.
  remember (_merge_options self [o]) as opts eqn:Hopts.
  destruct (opts !! "base_url"); [|cbn in H; discriminate H]. cbn in H.
  destruct (py_add p0 p); [|cbn in H; discriminate H]. cbn in H.
  destruct (opts !! "retries") as [r|] eqn:Hr; [|cbn in H; discriminate H].
  cbn in H.
  destruct (opts !! "retry_delay") eqn:Hd; [|cbn in H; discriminate H].
  cbn in H.
  destruct (_parse_request_options self _); [|cbn in H; discriminate H]. cbn in H.
  injection H as <- <- <-. simpl. eauto 6.
Qed.

Lemma request_loop_unbounded (rc : request_cfg) (b : float) (rs : list response) :
  rc_options rc !! "retry_backoff" = Some (PFloat b) ->
  Forall retried rs ->
  forall d : float, sleeps_accepted (backoff_schedule d b rs) ->
  exists tr, request_loop rc Inf (PFloat d) rs = (Pending, tr, []) /\
             count_sends tr = length rs.
Proof.
  intros Hb Hrs. induction Hrs as [|r rs Hr Hrs IH]; intros d Hsl.
  - exists []. split; reflexivity.
  - unfold retried, is_retryable_status in Hr. unfold sleeps_accepted in Hsl. simpl in Hsl |- *.
    unfold is_rate_limit_status in Hsl.
    destruct (STATUS_MAP (status_code r)) as [k|]; [|discriminate].
    rewrite Hr. simpl.
    destruct (is_rate_limit k); inversion Hsl as [|? ? Hw Hsl']; subst.
    + rewrite Hw.
      destruct (IH d Hsl') as [tr [-> Htr]].
      eexists. split; [reflexivity|]. unfold count_sends in *. simpl. lia.
    + rewrite Hw. unfold dict_getitem. rewrite Hb. simpl.
      destruct (IH (d * b)%float Hsl') as [tr [-> Htr]].
      eexists. split; [reflexivity|]. unfold count_sends in *. simpl. lia.
Qed.

Lemma request_loop_bounded (rc : request_cfg) (b : float) (n : nat) :
  rc_options rc !! "retry_backoff" = Some (PFloat b) ->
  forall (rs : list response) (r : response) (d : float),
  Forall retried rs -> rs !! n = Some r ->
  sleeps_accepted (take n (backoff_schedule d b rs)) ->
  exists k tr, STATUS_MAP (status_code r) = Some k /\
    request_loop rc (Fin (PInt (Z.of_nat n))) (PFloat d) rs =
      (Raised (AsanaError k r), tr, drop (S n) rs) /\
    count_sends tr = S n.
Proof.
  intros Hb. induction n as [|n IH]; intros rs r d Hrs Hn Hsl;
    destruct rs as [|r0 rs]; try discriminate; inversion Hrs as [|? ? Hr Hrs']; subst.
  - injection Hn as <-. unfold retried, is_retryable_status in Hr. simpl.
    destruct (STATUS_MAP (status_code r0)) as [k|]; [|discriminate].
    rewrite Hr. exists k, [Send (rc_method rc) (rc_url rc) (rc_request_options rc)].
    repeat split; reflexivity.
  - simpl in Hn. unfold retried, is_retryable_status in Hr. unfold sleeps_accepted in Hsl.
    simpl in Hsl |- *. unfold is_rate_limit_status in Hsl.
    destruct (STATUS_MAP (status_code r0)) as [k0|]; [|discriminate].
    rewrite Hr.
    replace (0 <? Z.of_nat (S n)) with true by (symmetry; apply Z.ltb_lt; lia).
    simpl. replace (Z.of_nat (S n) - 1) with (Z.of_nat n) by lia.
    destruct (is_rate_limit k0); inversion Hsl as [|? ? Hw Hsl']; subst.
    + rewrite Hw.
      destruct (IH rs r d Hrs' Hn Hsl') as [k [tr [Hk [-> Htr]]]].
      exists k, (Send (rc_method rc) (rc_url rc) (rc_request_options rc)
                 :: Sleep (PFloat (resp_retry_after r0)) :: tr).
      repeat split; [exact Hk|]. unfold count_sends in *. simpl. lia.
    + rewrite Hw. unfold dict_getitem. rewrite Hb. simpl.
      destruct (IH rs r (d * b)%float Hrs' Hn Hsl') as [k [tr [Hk [-> Htr]]]].
      exists k, (Send (rc_method rc) (rc_url rc) (rc_request_options rc)
                 :: Sleep (PFloat d) :: tr).
      repeat split; [exact Hk|]. unfold count_sends in *. simpl. lia.
Qed.

Lemma request_loop_sleeps (rc : request_cfg) (b : float) (rs : list response) :
  rc_options rc !! "retry_backoff" = Some (PFloat b) ->
  forall (c : counter) (d : float),
  sleeps (request_loop rc c (PFloat d) rs).1.2 `prefix_of` map PFloat (backoff_schedule d b rs).
Proof.
  intros Hb. induction rs as [|r rs IH]; intros c d; [apply prefix_nil|].
  simpl. unfold is_rate_limit_status.
  destruct (STATUS_MAP (status_code r)) as [k0|]; [|apply prefix_nil].
  destruct (is_retryable k0); [|apply prefix_nil].
  destruct (retries_gt0 c) as [[|]|]; try apply prefix_nil.
  destruct (retries_dec c) as [c'|]; [|apply prefix_nil].
  destruct (is_rate_limit k0).
  - destruct (py_sleep _); [|apply prefix_nil].
    specialize (IH c' d).
    destruct (request_loop rc c' (PFloat d) rs) as [[o tr] rest]. simpl in *.
    by apply prefix_cons.
  - destruct (py_sleep (PFloat d)); [|apply prefix_nil].
    unfold dict_getitem. rewrite Hb. simpl.
    specialize (IH c' (d * b)%float).
    destruct (request_loop rc c' (PFloat (d * b)) rs) as [[o tr] rest]. simpl in *.
    by apply prefix_cons.
Qed.

(** ** Claims on the request executor *)

(** C1. With [retries] configured to the integer 1 the budget is not one
    retry: line 46 tests [options['retries'] == True], which holds for [1],
    so the counter becomes [float('inf')]. For every stream of retryable
    responses whose waits [time.sleep] accepts, the executor absorbs each
    one and issues another call; it never propagates a failure for
    exhausting its attempts. *)
Theorem request_retries_one_unbounded (self : client) (m : string) (p : pyval) (o : dict)
    (rc : request_cfg) (c : counter) (dv : pyval) (d b : float) (rs : list response) :
  request_setup self m p o = Ok (rc, c, dv) ->
  _merge_options self [o] !! "retries" = Some (PInt 1) ->
  _merge_options self [o] !! "retry_delay" = Some (PFloat d) ->
  _merge_options self [o] !! "retry_backoff" = Some (PFloat b) ->
  Forall retried rs -> sleeps_accepted (backoff_schedule d b rs) ->
  exists tr, request self m p o rs = (Pending, tr, []) /\ count_sends tr = length rs.
Proof.
  intros Hs Hr Hd Hb Hrs Hsl.
  destruct (request_setup_ok _ _ _ _ _ _ _ Hs) as [Ho [_ [[r [Hr' Hc]] Hd']]].
  rewrite Hr in Hr'. injection Hr' as <-. simpl in Hc. subst c.
  rewrite Hd in Hd'. injection Hd' as <-.
  unfold request. rewrite Hs.
  apply (request_loop_unbounded rc b); [by rewrite Ho|exact Hrs|exact Hsl].
Qed.

(** Every integer budget other than 1 behaves as documented: with
    [retries = n], [n <> 1], retryable responses and waits [time.sleep]
    accepts, exactly [n + 1] calls are made and the [(n+1)]-th classified
    failure propagates unchanged. *)
Theorem request_retries_exhaust (self : client) (m : string) (p : pyval) (o : dict)
    (rc : request_cfg) (c : counter) (dv : pyval) (d b : float) (n : nat)
    (rs : list response) (r : response) :
  request_setup self m p o = Ok (rc, c, dv) ->
  _merge_options self [o] !! "retries" = Some (PInt (Z.of_nat n)) -> n <> 1%nat ->
  _merge_options self [o] !! "retry_delay" = Some (PFloat d) ->
  _merge_options self [o] !! "retry_backoff" = Some (PFloat b) ->
  Forall retried rs -> rs !! n = Some r ->
  sleeps_accepted (take n (backoff_schedule d b rs)) ->
  exists k tr, STATUS_MAP (status_code r) = Some k /\
    request self m p o rs = (Raised (AsanaError k r), tr, drop (S n) rs) /\
    count_sends tr = S n.
Proof.
  intros Hs Hr Hn1 Hd Hb Hrs Hn Hsl.
  destruct (request_setup_ok _ _ _ _ _ _ _ Hs) as [Ho [_ [[r' [Hr' Hc]] Hd']]].
  rewrite Hr in Hr'. injection Hr' as <-.
  replace (py_eq_true (PInt (Z.of_nat n))) with false in Hc
    by (symmetry; apply Z.eqb_neq; lia). subst c.
  rewrite Hd in Hd'. injection Hd' as <-.
  unfold request. rewrite Hs.
  apply (request_loop_bounded rc b n); [by rewrite Ho|exact Hrs|exact Hn|exact Hsl].
Qed.

(** C2 (as amended). The unbounded sentinel of the code is [True]: with
    [retries] resolved to [True] every retryable response is absorbed and
    another call is made, as long as [time.sleep] accepts the waits. The
    string ["infinite"] is not recognised: the first retryable response then
    raises [TypeError] ([retries > 0] on a string) after a single call. *)
Theorem request_retries_sentinel (self : client) (m : string) (p : pyval) (o : dict)
    (rc : request_cfg) (c : counter) (dv : pyval) :
  request_setup self m p o = Ok (rc, c, dv) ->
  (forall (d b : float) (rs : list response),
     _merge_options self [o] !! "retries" = Some (PBool true) ->
     _merge_options self [o] !! "retry_delay" = Some (PFloat d) ->
     _merge_options self [o] !! "retry_backoff" = Some (PFloat b) ->
     Forall retried rs -> sleeps_accepted (backoff_schedule d b rs) ->
     exists tr, request self m p o rs = (Pending, tr, []) /\ count_sends tr = length rs) /\
  (forall (r : response) (rs : list response),
     _merge_options self [o] !! "retries" = Some (PStr "infinite") ->
     is_retryable_status (status_code r) = true ->
     request self m p o (r :: rs) =
       (Raised TypeError, [Send m (rc_url rc) (rc_request_options rc)], rs)).
Proof.
  intros Hs.
  destruct (request_setup_ok _ _ _ _ _ _ _ Hs) as [Ho [Hm [[r0 [Hr0 Hc]] Hd0]]].
  split.
  - intros d b rs Hr Hd Hb Hrs Hsl.
    rewrite Hr in Hr0. injection Hr0 as <-. simpl in Hc. subst c.
    rewrite Hd in Hd0. injection Hd0 as <-.
    unfold request. rewrite Hs.
    apply (request_loop_unbounded rc b); [by rewrite Ho|exact Hrs|exact Hsl].
  - intros r rs Hr Hret.
    rewrite Hr in Hr0. injection Hr0 as <-. simpl in Hc. subst c.
    unfold request. rewrite Hs. simpl. unfold is_retryable_status in Hret.
    destruct (STATUS_MAP (status_code r)) as [k|]; [|discriminate].
    rewrite Hret, Hm. reflexivity.
Qed.

(** C3 (as amended). A status code outside the classification table is not
    turned into a failure: after that single call the executor returns the
    decoded body, the whole envelope if the resolved [full_payload] is
    truthy and its ["data"] entry otherwise (failing only if that entry is
    missing). *)
Theorem request_unmapped_status_returns_body (self : client) (m : string) (p : pyval)
    (o : dict) (rc : request_cfg) (c : counter) (d : pyval) (r : response)
    (rs : list response) :
  request_setup self m p o = Ok (rc, c, d) ->
  STATUS_MAP (status_code r) = None ->
  request self m p o (r :: rs) =
    (of_res (fp ← dict_getitem (_merge_options self [o]) "full_payload";
             if truthy fp then Ok (json_body r) else getitem (json_body r) "data"),
     [Send m (rc_url rc) (rc_request_options rc)], rs).
Proof.
  intros Hs Hst.
  destruct (request_setup_ok _ _ _ _ _ _ _ Hs) as [Ho [Hm _]].
  unfold request. rewrite Hs. simpl. rewrite Hst, Ho, Hm. reflexivity.
Qed.

(** C5 (as amended). Within one call of [request], the waits of the
    retries are, in order, those of [backoff_schedule]: a rate-limit retry
    waits [retry_after]; any other retry waits the current delay, which
    starts at [retry_delay] and is multiplied by [retry_backoff] after each
    such retry, each product rounded to a double. The waits performed are a
    prefix of that schedule. *)
Theorem request_backoff_delays (self : client) (m : string) (p : pyval) (o : dict)
    (rc : request_cfg) (c : counter) (dv : pyval) (d b : float) (rs : list response) :
  request_setup self m p o = Ok (rc, c, dv) ->
  _merge_options self [o] !! "retry_delay" = Some (PFloat d) ->
  _merge_options self [o] !! "retry_backoff" = Some (PFloat b) ->
  sleeps (request self m p o rs).1.2 `prefix_of` map PFloat (backoff_schedule d b rs).
Proof.
  intros Hs Hd Hb.
  destruct (request_setup_ok _ _ _ _ _ _ _ Hs) as [Ho [_ [_ Hd']]].
  rewrite Hd in Hd'. injection Hd' as <-.
  unfold request. rewrite Hs.
  apply request_loop_sleeps. by rewrite Ho.
Qed.

(** C6. A retry caused by a rate-limit (429) response waits exactly the
    server's [retry_after], whatever the current delay and the configured
    backoff, and continues with the delay unchanged. When [time.sleep]
    refuses that wait (a NaN or negative one, or one of [2^63] ns or more)
    its exception ends the request after that call. *)
Theorem rate_limit_retry_keeps_delay (rc : request_cfg) (c c' : counter)
    (retry_delay : pyval) (r : response) (rs : list response) :
  STATUS_MAP (status_code r) = Some RateLimitEnforcedError ->
  retries_gt0 c = Ok true -> retries_dec c = Ok c' ->
  (py_sleep (PFloat (resp_retry_after r)) = Ok tt ->
   request_loop rc c retry_delay (r :: rs) =
     let '(o, tr, rest) := request_loop rc c' retry_delay rs in
     (o, Send (rc_method rc) (rc_url rc) (rc_request_options rc)
           :: Sleep (PFloat (resp_retry_after r)) :: tr, rest)) /\
  (forall e, py_sleep (PFloat (resp_retry_after r)) = Exc e ->
   request_loop rc c retry_delay (r :: rs) =
     (Raised e, [Send (rc_method rc) (rc_url rc) (rc_request_options rc)], rs)).
Proof.
  intros Hst Hgt Hdec. split.
  - intros Hra. simpl. rewrite Hst. simpl. rewrite Hgt, Hdec, Hra.
    destruct (request_loop rc c' retry_delay rs) as [[o tr] rest]. reflexivity.
  - intros e Hra. simpl. rewrite Hst. simpl. rewrite Hgt, Hdec, Hra. reflexivity.
Qed.

(** ** Claims on collections *)

(** C7. Page iterator exhaustion is absorbing: the initial state
    ([next_page = False]) is not the exhausted one ([None]); a step whose
    fetched envelope has no [next_page] returns that envelope's data and
    leaves the iterator exhausted; from then on every step signals
    [StopIteration], issues no transport call and changes nothing. *)
Theorem page_iterator_exhaustion :
  (forall (cl : client) (p : pyval) (q o : dict),
     pi_next_page (_PageIterator cl p q o) <> PNone) /\
  (forall (it it1 : page_iter) (rs rest : list response) (env v : pyval) (tr : list event),
     pi_next_page it <> PNone ->
     page_fetch it rs = (it1, Done env, tr, rest) ->
     py_dict_get env "next_page" PNone = Ok PNone ->
     getitem env "data" = Ok v ->
     page_next it rs = (Done v, set_pi_next_page it1 PNone, tr, rest)) /\
  (forall it : page_iter, pi_next_page it = PNone ->
     forall (n : nat) (rs : list response),
       page_steps (S n) it rs = ([], Raised StopIteration, it, [], rs)).
Proof.
  split; [|split].
  - intros cl p q o. simpl. discriminate.
  - intros it it1 rs rest env v tr Hnp Hf Hn Hd. unfold page_next.
    replace (py_is_none (pi_next_page it)) with false
      by (destruct (pi_next_page it) eqn:E; simpl; congruence).
    rewrite Hf, Hn, Hd. reflexivity.
  - intros it Hnp n rs. simpl. unfold page_next. rewrite Hnp. reflexivity.
Qed.

(** C8. Following a cursor does not keep [offset] out of the request when
    the client was built with an [offset] option: [__next__] pops [offset]
    from its own options, but [get] merges the client's options back in
    ([_select_options] calls [_merge_options]), so the cursor request for
    ["/tasks?offset=Y"] is still sent with [offset=X]. *)
Theorem cursor_request_keeps_client_offset :
  let cl := Client {["offset" := PStr "X"]} in
  let it := _PageIterator cl (PStr "/tasks") ∅ (_merge_options cl [∅]) in
  let '(pages, _, it', tr, _) := page_steps 2 it two_pages in
  pages = [PList [PStr "t1"; PStr "t2"]; PList [PStr "t3"]] /\
  pi_options it' !! "offset" = None /\
  map sent_url tr = [Some (PStr "https://app.asana.com/api/1.0/tasks");
                     Some (PStr "https://app.asana.com/api/1.0/tasks?offset=Y")] /\
  map sent_offset tr = [Some (PStr "X"); Some (PStr "X")].
Proof. vm_compute. repeat split. Qed.

(** C9. The item generator yields the pages' items in order, but it does
    not end normally: after the page iterator is exhausted its body runs
    [raise StopIteration], which the consumer receives as [RuntimeError]
    (PEP 479). Shown on the two-page server [[t1, t2]], [[t3]]. *)
Theorem item_iterator_ends_with_runtime_error :
  let cl := Client {["iterator_type" := PStr "items"]} in
  match get_collection cl (PStr "/tasks") ∅ ∅ [] with
  | (Done (ItemIterator it), _, _) =>
      let '(items, fin, _, rest) := items_run 5 it two_pages in
      items = [PStr "t1"; PStr "t2"; PStr "t3"] /\ fin = Raised RuntimeError /\ rest = []
  | _ => False
  end.
Proof. vm_compute. repeat split. Qed.

(** C10. [get_collection] dispatches on the resolved [iterator_type]:
    ["pages"] gives a page iterator, ["items"] an item generator, [None] a
    direct [get]; any other value raises [NameError] (the name [Error] is
    undefined), not an error of the library's taxonomy. *)
Theorem get_collection_dispatch (cl : client) (path : pyval) (query options : dict)
    (rs : list response) (v : pyval) :
  _merge_options cl [options] !! "iterator_type" = Some v ->
  kwargs_clash ["self"; "path"; "query"] (_merge_options cl [options]) = false ->
  (v = PStr "pages" /\
     get_collection cl path query options rs =
       (Done (PageIterator (_PageIterator cl path query (_merge_options cl [options]))), [], rs)) \/
  (v = PStr "items" /\
     get_collection cl path query options rs =
       (Done (ItemIterator (_PageIterator cl path query (_merge_options cl [options]))), [], rs)) \/
  (v = PNone /\
     forall o tr rest,
       call_get cl path query (_merge_options cl [options]) rs = (o, tr, rest) ->
       get_collection cl path query options rs =
         (match o with Done d => Done (Data d) | Raised e => Raised e | Pending => Pending end,
          tr, rest)) \/
  (v <> PStr "pages" /\ v <> PStr "items" /\ v <> PNone /\
     get_collection cl path query options rs = (Raised NameError, [], rs)).
Proof.
  intros Hv Hk. unfold get_collection, dict_getitem. rewrite Hv, Hk.
  destruct (py_eq_str v "pages") eqn:Hp.
  { left. split; [|reflexivity].
    destruct v; try discriminate. simpl in Hp. apply String.eqb_eq in Hp. by subst. }
  destruct (py_eq_str v "items") eqn:Hi.
  { right; left. split; [|reflexivity].
    destruct v; try discriminate. simpl in Hi. apply String.eqb_eq in Hi. by subst. }
  destruct (py_is_none v) eqn:Hn.
  { right; right; left. split.
    - destruct v; try discriminate. reflexivity.
    - intros o tr rest Hc. rewrite Hc. by destruct o. }
  right; right; right. repeat split; [| |by destruct v].
  - intros ->. simpl in Hp. discriminate.
  - intros ->. simpl in Hi. discriminate.
Qed.

(** ** Witnesses and counterexamples *)

(** Closes the side conditions of a theorem applied at a concrete input. *)
Ltac solve_concrete :=
  repeat first [ match goal with |- _ = _ => reflexivity end
               | progress unfold sleeps_accepted
               | match goal with |- Forall _ _ => constructor end
               | split ].

Lemma request_retries_one_unbounded_witness :
  exists tr, request (Client {["retries" := PInt 1]}) "get" (PStr "/tasks") ∅
               [r500; r500; r500] = (Pending, tr, []) /\ count_sends tr = 3%nat.
Proof.
  eapply (request_retries_one_unbounded _ _ _ _ _ _ _ 1.0%float 2.0%float).
  all: solve_concrete.
  Unshelve. all: try reflexivity.
Defined.

Lemma request_infinite_string_raises :
  request (Client {["retries" := PStr "infinite"]}) "get" (PStr "/tasks") ∅ [r500; r500] =
    (Raised TypeError, [Send "get" (PStr "https://app.asana.com/api/1.0/tasks") ∅], [r500]).
Proof. vm_compute. reflexivity. Qed.

Lemma request_retries_sentinel_witness :
  exists tr, request (Client {["retries" := PBool true]}) "get" (PStr "/tasks") ∅
               [r500; r429; r500] = (Pending, tr, []) /\ count_sends tr = 3%nat.
Proof.
  eapply (proj1 (request_retries_sentinel _ _ _ _ _ _ _ _) 1.0%float 2.0%float).
  all: solve_concrete.
  Unshelve. all: try reflexivity.
Defined.

Lemma request_unmapped_status_counterexample :
  request (Client ∅) "get" (PStr "/tasks") ∅ [r418] =
    (Done (PList [PStr "t1"]), [Send "get" (PStr "https://app.asana.com/api/1.0/tasks") ∅], []).
Proof. vm_compute. reflexivity. Qed.

Lemma request_unmapped_status_returns_body_witness :
  request (Client ∅) "get" (PStr "/tasks") ∅ [r418] =
    (Done (PList [PStr "t1"]), [Send "get" (PStr "https://app.asana.com/api/1.0/tasks") ∅], []).
Proof.
  etransitivity; [eapply request_unmapped_status_returns_body; reflexivity|].
  vm_compute. reflexivity.
Defined.

Example backoff_1_2_4 :
  sleeps (request (Client ∅) "get" (PStr "/tasks") ∅ [r500; r500; r500; r500]).1.2 =
    [PFloat 1.0; PFloat 2.0; PFloat 4.0; PFloat 8.0].
Proof. vm_compute. reflexivity. Qed.

(** With [retry_delay=0.1] and [retry_backoff=3.0] the third wait is
    [0.9000000000000001], the rounded [(0.1 * 3.0) * 3.0], not
    [0.1 * 3.0 ** 2 = 0.9]; and with the defaults and [retries=True] the
    wait [2^34] s of the 35th retry exceeds [2^63] ns: [time.sleep] raises
    [OverflowError] and the request ends there. *)
Lemma request_backoff_counterexample :
  sleeps (request (Client {["retry_delay" := PFloat 0.1; "retry_backoff" := PFloat 3.0]})
            "get" (PStr "/tasks") ∅ [r500; r500; r500]).1.2 =
    [PFloat 0.1; PFloat 0.30000000000000004; PFloat 0.9000000000000001] /\
  (0.9000000000000001 <> 0.1 * (3.0 * 3.0))%float /\
  (let '(o, tr, _) := request (Client {["retries" := PBool true]}) "get" (PStr "/tasks") ∅
                        (replicate 40 r500) in
   o = Raised OverflowError /\ count_sends tr = 35%nat /\
   last (sleeps tr) = Some (PFloat 8589934592.0)).
Proof.
  split; [vm_compute; reflexivity|]. split.
  - intros H. pose proof (f_equal (fun x => (x =? 0.9000000000000001)%float) H) as E.
    vm_compute in E. discriminate E.
  - vm_compute. split; [reflexivity|]. split; reflexivity.
Qed.

Lemma request_backoff_delays_witness :
  sleeps (request (Client ∅) "get" (PStr "/tasks") ∅ [r500; r429; r500; r500]).1.2 `prefix_of`
    map PFloat (backoff_schedule 1.0 2.0 [r500; r429; r500; r500]).
Proof.
  eapply request_backoff_delays; reflexivity.
  Unshelve. all: try reflexivity.
Defined.

Lemma rate_limit_retry_keeps_delay_witness :
  request_loop default_cfg (Fin (PInt 5)) (PFloat 4.0) [r429; r500] =
    (let '(o, tr, rest) := request_loop default_cfg (Fin (PInt 4)) (PFloat 4.0) [r500] in
     (o, Send "get" (PStr "https://app.asana.com/api/1.0/tasks") ∅ :: Sleep (PFloat 30.0) :: tr,
      rest)) /\
  request_loop default_cfg (Fin (PInt 5)) (PFloat 4.0) [r429_1e10; r500] =
    (Raised OverflowError, [Send "get" (PStr "https://app.asana.com/api/1.0/tasks") ∅], [r500]).
Proof.
  split.
  - apply (proj1 (rate_limit_retry_keeps_delay default_cfg (Fin (PInt 5)) (Fin (PInt 4))
                    (PFloat 4.0) r429 [r500] eq_refl eq_refl eq_refl)).
    reflexivity.
  - apply (proj2 (rate_limit_retry_keeps_delay default_cfg (Fin (PInt 5)) (Fin (PInt 4))
                    (PFloat 4.0) r429_1e10 [r500] eq_refl eq_refl eq_refl)).
    reflexivity.
Defined.

Lemma page_iterator_exhaustion_witness :
  (exists (it' : page_iter) (tr : list event),
     page_next (page_next tasks_pages two_pages).1.1.2 [envelope [PStr "t3"] PNone] =
       (Done (PList [PStr "t3"]), it', tr, []) /\ pi_next_page it' = PNone) /\
  page_steps 3 (set_pi_next_page tasks_pages PNone) two_pages =
    ([], Raised StopIteration, set_pi_next_page tasks_pages PNone, [], two_pages).
Proof.
  split.
  - do 2 eexists. split.
    + match goal with
      | |- page_next ?it ?rs = _ =>
          let r := eval vm_compute in (page_fetch it rs) in
          match r with
          | (?it1, Done ?env, ?tr, ?rest) =>
              apply (proj1 (proj2 page_iterator_exhaustion) it it1 rs rest env _ tr)
          end
      end.
      * vm_compute. discriminate.
      * vm_compute. reflexivity.
      * vm_compute. reflexivity.
      * vm_compute. reflexivity.
    + reflexivity.
  - apply (proj2 (proj2 page_iterator_exhaustion)). vm_compute. reflexivity.
Defined.

Lemma get_collection_dispatch_witness :
  let cl := Client {["iterator_type" := PStr "bogus"]} in
  (PStr "bogus" = PStr "pages" /\
     get_collection cl (PStr "/tasks") ∅ ∅ [] =
       (Done (PageIterator (_PageIterator cl (PStr "/tasks") ∅ (_merge_options cl [∅]))), [], [])) \/
  (PStr "bogus" = PStr "items" /\
     get_collection cl (PStr "/tasks") ∅ ∅ [] =
       (Done (ItemIterator (_PageIterator cl (PStr "/tasks") ∅ (_merge_options cl [∅]))), [], [])) \/
  (PStr "bogus" = PNone /\
     forall o tr rest,
       call_get cl (PStr "/tasks") ∅ (_merge_options cl [∅]) [] = (o, tr, rest) ->
       get_collection cl (PStr "/tasks") ∅ ∅ [] =
         (match o with Done d => Done (Data d) | Raised e => Raised e | Pending => Pending end,
          tr, rest)) \/
  (PStr "bogus" <> PStr "pages" /\ PStr "bogus" <> PStr "items" /\ PStr "bogus" <> PNone /\
     get_collection cl (PStr "/tasks") ∅ ∅ [] = (Raised NameError, [], [])).
Proof. apply get_collection_dispatch; reflexivity. Defined.

(** ** General shape of the collection steps *)

(** The item generator yields the concatenation of the pages, in order,
    and ends as the page iterator does, except that the normal end
    ([StopIteration]) reaches the consumer as [RuntimeError]. *)
Lemma items_run_concat (fuel : nat) :
  forall (it it' : page_iter) (rs rest : list response) (pages : list pyval)
         (fin : outcome unit) (tr : list event) (itemss : list (list pyval)),
  page_steps fuel it rs = (pages, fin, it', tr, rest) ->
  Forall2 (fun page items => py_iter page = Ok items) pages itemss ->
  items_run fuel it rs = (concat itemss, items_end fin, tr, rest).
Proof.
  induction fuel as [|fuel IH]; intros it it' rs rest pages fin tr itemss Hp Hi.
  - simpl in Hp. injection Hp as <- <- <- <- <-. inversion Hi. reflexivity.
  - simpl in Hp |- *.
    destruct (page_next it rs) as [[[o it1] tr1] rest1].
    destruct o as [page|e|].
    + destruct (page_steps fuel it1 rest1) as [[[[pages' fin'] it''] tr'] rest'] eqn:E.
      injection Hp as <- <- <- <- <-.
      inversion Hi as [|? items ? itemss' Hpage Hi']; subst.
      rewrite Hpage, (IH _ _ _ _ _ _ _ _ E Hi'). reflexivity.
    + injection Hp as <- <- <- <- <-. inversion Hi; subst.
      destruct e; reflexivity.
    + injection Hp as <- <- <- <- <-. inversion Hi; subst. reflexivity.
Qed.

(** A step that follows a cursor [cur]: [offset] is dropped from the
    iterator's options and [get] is called on the cursor's [path] with an
    empty query. *)
Lemma page_fetch_cursor (it : page_iter) (cur : dict) (rs : list response) :
  pi_next_page it = PDict cur ->
  page_fetch it rs =
    let options := delete "offset" (pi_options it) in
    match cur !! "path" with
    | Some p =>
        let '(o, tr, rest) := call_get (pi_client it) p ∅ options rs in
        (set_pi_options it options, o, tr, rest)
    | None => (set_pi_options it options, Raised KeyError, [], rs)
    end.
Proof.
  intros Hc. unfold page_fetch. rewrite Hc. simpl. unfold dict_getitem.
  destruct (cur !! "path"); reflexivity.
Qed.

Lemma request_retries_exhaust_witness :
  exists k tr, STATUS_MAP (status_code r500) = Some k /\
    request (Client {["retries" := PInt 2]}) "get" (PStr "/tasks") ∅
      [r500; r500; r500] = (Raised (AsanaError k r500), tr, []) /\
    count_sends tr = 3%nat.
Proof.
  eapply (request_retries_exhaust _ _ _ _ _ _ _ 1.0%float 2.0%float 2%nat).
  all: try lia.
  all: solve_concrete.
  Unshelve. all: try reflexivity.
Defined.

Lemma items_run_concat_witness :
  exists tr, items_run 3 tasks_pages two_pages =
    ([PStr "t1"; PStr "t2"; PStr "t3"], Raised RuntimeError, tr, []).
Proof.
  eexists.
  eapply (items_run_concat 3 tasks_pages _ two_pages []
            [PList [PStr "t1"; PStr "t2"]; PList [PStr "t3"]] (Raised StopIteration) _
            [[PStr "t1"; PStr "t2"]; [PStr "t3"]]).
  - reflexivity.
  - repeat constructor.
Defined.

(** ** Properties of [request], [get], [post], [put] and the page iterator *)


Lemma request_loop_sends (rc : request_cfg) (rs : list response) :
  forall (c : counter) (d : pyval),
  let '(_, tr, _) := request_loop rc c d rs in
  each_send (fun m url ro => m = rc_method rc /\ url = rc_url rc /\ ro = rc_request_options rc) tr.
Proof.
  induction rs as [|r rs IH]; intros c d; simpl.
  - constructor.
  - repeat case_match; simplify_eq; repeat constructor;
      try match goal with
      | H : request_loop _ ?c' ?d' rs = _ |- _ => specialize (IH c' d'); rewrite H in IH; exact IH
      end.
Qed.

Lemma select_options_lookup (self : client) (options : dict) (keys : list string) (k : string) :
  _select_options self options keys !! k =
    if bool_decide (k ∈ keys) then _merge_options self [options] !! k else None.
Proof.
  unfold _select_options. generalize (_merge_options self [options]) as m. intros m.
  induction keys as [|key keys IH].
  - apply lookup_empty.
  - simpl. destruct (decide (k = key)) as [->|Hne].
    + rewrite bool_decide_eq_true_2 by (apply elem_of_cons; by left).
      destruct (m !! key) eqn:E; simpl.
      * by rewrite lookup_insert_eq.
      * etransitivity; [exact IH|]. by case_bool_decide.
    + assert (bool_decide (k ∈ key :: keys) = bool_decide (k ∈ keys)) as ->.
      { apply bool_decide_ext. rewrite elem_of_cons. naive_solver. }
      destruct (m !! key); simpl; [|exact IH].
      rewrite lookup_insert_ne; [exact IH|congruence].
Qed.

Lemma merge_options_lookup (self : client) (o : dict) (k : string) :
  _merge_options self [o] !! k =
    match o !! k with Some v => Some v | None => client_options self !! k end.
Proof. apply _merge_two. Qed.

Lemma merge_options_idem (self : client) (o : dict) (k : string) :
  _merge_options self [_merge_options self [o]] !! k = _merge_options self [o] !! k.
Proof.
  rewrite !merge_options_lookup. by destruct (o !! k), (client_options self !! k).
Qed.

Lemma parse_request_options_spec (self : client) (opts ro : dict) :
  _parse_request_options self opts = Ok ro ->
  ro !! "headers" = _merge_options self [opts] !! "headers" /\
  ro !! "data" = _merge_options self [opts] !! "data" /\
  (forall d, _merge_options self [opts] !! "params" = Some (PDict d) ->
             ro !! "params" = Some (PDict (dump_bool <$> d))).
Proof.
  unfold _parse_request_options. intros H.
  pose proof (select_options_lookup self opts ["headers"; "params"; "data"]) as Hsel.
  remember (_select_options self opts ["headers"; "params"; "data"]) as sel eqn:Esel.
  clear Esel.
  destruct (sel !! "params") as [p|] eqn:Ep.
  - destruct (dump_bool_params p) as [p'|e] eqn:Edp; cbn in H; try discriminate H.
    injection H as <-.
    rewrite !lookup_insert_ne by done. rewrite !Hsel.
    rewrite Hsel in Ep. simpl in Ep.
    split; [done|]. split; [done|]. intros d' Hd. rewrite Ep in Hd. injection Hd as ->.
    cbn in Edp. injection Edp as <-. rewrite lookup_insert_eq. repeat f_equal.
  - injection H as <-. rewrite !Hsel. rewrite Hsel in Ep.
    simpl in Ep. split; [done|]. split; [done|]. intros d Hd. congruence.
Qed.

Lemma request_setup_spec (self : client) (m : string) (p : pyval) (o : dict)
    (rc : request_cfg) (c : counter) (d : pyval) :
  request_setup self m p o = Ok (rc, c, d) ->
  rc_method rc = m /\
  _parse_request_options self (_merge_options self [o]) = Ok (rc_request_options rc) /\
  (exists base, _merge_options self [o] !! "base_url" = Some base /\ py_add base p = Ok (rc_url rc)).
Proof.
  unfold request_setup, dict_getitem. intros H.
  remember (_merge_options self [o]) as opts eqn:Hopts.
  destruct (opts !! "base_url") as [base|]; [|cbn in H; discriminate H]. cbn in H.
  destruct (py_add base p) as [url|] eqn:Hu; [|cbn in H; discriminate H]. cbn in H.
  destruct (opts !! "retries") as [r|]; [|cbn in H; discriminate H]. cbn in H.
  destruct (opts !! "retry_delay"); [|cbn in H; discriminate H]. cbn in H.
  destruct (_parse_request_options self opts) eqn:Hro; [|cbn in H; discriminate H]. cbn in H.
  injection H as <- <- <-. simpl. eauto.
Qed.

Lemma request_sends (self : client) (m : string) (p : pyval) (o : dict) (rs : list response) :
  let '(_, tr, _) := request self m p o rs in
  each_send (fun m' url ro => m' = m /\
    _parse_request_options self (_merge_options self [o]) = Ok ro /\
    exists base, _merge_options self [o] !! "base_url" = Some base /\ py_add base p = Ok url) tr.
Proof.
  unfold request. destruct (request_setup self m p o) as [[[rc c] d]|e] eqn:Hs; [|constructor].
  destruct (request_setup_spec _ _ _ _ _ _ _ Hs) as (Hm & Hro & Hu).
  pose proof (request_loop_sends rc rs c d) as Hl.
  destruct (request_loop rc c d rs) as [[out tr] rest].
  eapply Forall_impl; [exact Hl|]. intros [m' url ro|v]; [|done].
  intros (-> & -> & ->). eauto.
Qed.

Lemma join_strs_error (l : list pyval) (e : exn) : join_strs l = Exc e -> e = TypeError.
Proof.
  induction l as [|x l IH]; simpl; [discriminate|].
  destruct x; try (intros H; injection H as <-; reflexivity).
  destruct l; [discriminate|].
  destruct (join_strs (p :: l)); simpl; [discriminate|]. intros H; injection H as <-. auto.
Qed.

Lemma res_bind_ok {A B} (m : res A) (f : A -> res B) (b : B) :
  (m ≫= f) = Ok b -> exists a, m = Ok a /\ f a = Ok b.
Proof. destruct m; simpl; [eauto|discriminate]. Qed.

Lemma api_step (api acc acc' : dict) (key : string) :
  match api !! key with
  | None => Ok acc
  | Some (PList l) => s ← join_strs l; Ok (<[String.append "opt_" key := PStr s]> acc)
  | Some v => Ok (<[String.append "opt_" key := v]> acc)
  end = Ok acc' ->
  acc' = match api_value (api !! key) with
         | Some v => <[String.append "opt_" key := v]> acc
         | None => acc
         end.
Proof.
  unfold api_value. destruct (api !! key) as [v|]; [|congruence].
  destruct v; try congruence.
  destruct (join_strs l); simpl; congruence.
Qed.

Lemma parse_api_options_spec (self : client) (o a : dict) (k : string) :
  _parse_api_options self o true = Ok a ->
  a !! k =
    if bool_decide (k = "opt_pretty") then api_value (_merge_options self [o] !! "pretty")
    else if bool_decide (k = "opt_fields") then api_value (_merge_options self [o] !! "fields")
    else if bool_decide (k = "opt_expand") then api_value (_merge_options self [o] !! "expand")
    else None.
Proof.
  unfold _parse_api_options. intros H.
  pose proof (select_options_lookup self o api_keys) as Hsel.
  remember (_select_options self o api_keys) as sel eqn:Esel. clear Esel.
  assert (sel !! "pretty" = _merge_options self [o] !! "pretty") as Hp by (rewrite Hsel; reflexivity).
  assert (sel !! "fields" = _merge_options self [o] !! "fields") as Hf by (rewrite Hsel; reflexivity).
  assert (sel !! "expand" = _merge_options self [o] !! "expand") as He by (rewrite Hsel; reflexivity).
  clear Hsel. rewrite <- Hp, <- Hf, <- He. clear Hp Hf He.
  unfold api_keys in H. cbn [fold_left] in H.
  apply res_bind_ok in H as (a2 & H2 & H3). apply api_step in H3 as ->.
  apply res_bind_ok in H2 as (a1 & H1 & H2). apply api_step in H2 as ->.
  apply res_bind_ok in H1 as (a0 & H0 & H1). apply api_step in H1 as ->.
  injection H0 as <-.
  destruct (api_value (sel !! "pretty")), (api_value (sel !! "fields")),
           (api_value (sel !! "expand"));
  repeat case_bool_decide; subst; simplify_map_eq; reflexivity.
Qed.

Lemma res_bind_exc {A B} (m : res A) (f : A -> res B) (e : exn) :
  (m ≫= f) = Exc e -> m = Exc e \/ exists a, m = Ok a /\ f a = Exc e.
Proof. destruct m; simpl; [eauto|intros H; injection H as ->; auto]. Qed.

Lemma api_step_exc (api acc : dict) (key : string) (e : exn) :
  match api !! key with
  | None => Ok acc
  | Some (PList l) => s ← join_strs l; Ok (<[String.append "opt_" key := PStr s]> acc)
  | Some v => Ok (<[String.append "opt_" key := v]> acc)
  end = Exc e -> e = TypeError.
Proof.
  destruct (api !! key) as [v|]; [|congruence].
  destruct v; try congruence.
  destruct (join_strs l) eqn:E; simpl; [congruence|].
  intros H; injection H as <-. by apply (join_strs_error l).
Qed.

Lemma api_step_join (api acc acc' : dict) (key : string) (l : list pyval) :
  api !! key = Some (PList l) ->
  match api !! key with
  | None => Ok acc
  | Some (PList l) => s ← join_strs l; Ok (<[String.append "opt_" key := PStr s]> acc)
  | Some v => Ok (<[String.append "opt_" key := v]> acc)
  end = Ok acc' ->
  exists s, join_strs l = Ok s.
Proof. intros ->. destruct (join_strs l); simpl; [eauto|congruence]. Qed.

Lemma parse_api_options_exc (self : client) (o : dict) (e : exn) :
  _parse_api_options self o true = Exc e -> e = TypeError.
Proof.
  unfold _parse_api_options. generalize (_select_options self o api_keys) as sel. intros sel H.
  unfold api_keys in H. cbn [fold_left] in H.
  apply res_bind_exc in H as [H|(a2 & _ & H)]; [|by eapply api_step_exc].
  apply res_bind_exc in H as [H|(a1 & _ & H)]; [|by eapply api_step_exc].
  apply res_bind_exc in H as [H|(a0 & _ & H)]; [|by eapply api_step_exc].
  discriminate H.
Qed.

Lemma join_strs_non_string (l : list pyval) :
  (exists x, x ∈ l /\ forall s, x <> PStr s) -> exists e, join_strs l = Exc e.
Proof.
  intros (x & Hx & Hs). induction l as [|y l IH]; [by apply elem_of_nil in Hx|].
  apply elem_of_cons in Hx as [->|Hx].
  - destruct y; simpl; eauto. by destruct (Hs s).
  - destruct (IH Hx) as [e He]. simpl.
    destruct y; eauto. destruct l; [by apply elem_of_nil in Hx|]. rewrite He. simpl. eauto.
Qed.

Lemma parse_api_options_join_error (self : client) (o : dict) (key : string) (l : list pyval) :
  key ∈ api_keys -> _merge_options self [o] !! key = Some (PList l) ->
  (exists x, x ∈ l /\ forall s, x <> PStr s) ->
  _parse_api_options self o true = Exc TypeError.
Proof.
  intros Hk Hl Hx. destruct (join_strs_non_string l Hx) as [e' He'].
  destruct (_parse_api_options self o true) as [a|e] eqn:E.
  - exfalso. unfold _parse_api_options in E.
    pose proof (select_options_lookup self o api_keys key) as Hsel.
    rewrite bool_decide_eq_true_2 in Hsel by exact Hk. rewrite Hl in Hsel.
    revert E Hsel. generalize (_select_options self o api_keys) as sel. intros sel E Hsel.
    unfold api_keys in E. cbn [fold_left] in E.
    apply res_bind_ok in E as (a2 & E2 & E3).
    apply res_bind_ok in E2 as (a1 & E1 & E2).
    apply res_bind_ok in E1 as (a0 & E0 & E1).
    unfold api_keys in Hk. rewrite !elem_of_cons, elem_of_nil in Hk.
    destruct Hk as [->|[->|[->|[]]]];
      [destruct (api_step_join _ _ _ _ _ Hsel E1) as [s Hs]
      |destruct (api_step_join _ _ _ _ _ Hsel E2) as [s Hs]
      |destruct (api_step_join _ _ _ _ _ Hsel E3) as [s Hs]]; congruence.
  - f_equal. by apply parse_api_options_exc in E.
Qed.

Lemma merge_three (x y z : dict) (k : string) :
  _merge [x; y; z] !! k =
    match z !! k with Some v => Some v | None =>
      match y !! k with Some v => Some v | None => x !! k end end.
Proof. change [x; y; z] with ([x; y] ++ [z]). rewrite _merge_snoc, _merge_two. done. Qed.

Lemma get_query_spec (self : client) (query options q : dict) (k : string) :
  get_query self query options = Ok q ->
  q !! k =
    match query !! k with
    | Some v => Some v
    | None =>
        if bool_decide (k = "opt_pretty") then api_value (_merge_options self [options] !! "pretty")
        else if bool_decide (k = "opt_fields") then api_value (_merge_options self [options] !! "fields")
        else if bool_decide (k = "opt_expand") then api_value (_merge_options self [options] !! "expand")
        else if bool_decide (k ∈ ["limit"; "offset"; "sync"]) then _merge_options self [options] !! k
        else None
    end.
Proof.
  unfold get_query. destruct (_parse_api_options self options true) as [a|e] eqn:Ea;
    simpl; [|discriminate].
  intros H. injection H as <-. rewrite merge_three.
  rewrite (parse_api_options_spec _ _ _ _ Ea). unfold _parse_query_options.
  rewrite select_options_lookup.
  destruct (query !! k); [done|].
  repeat case_bool_decide; subst; try done.
  all: try (exfalso; match goal with H : _ ∈ _ |- _ => revert H end;
             rewrite !elem_of_cons, elem_of_nil; intros [?|[?|[?|[]]]]; congruence).
  all: by destruct (api_value _).
Qed.

Lemma get_query_exc (self : client) (query options : dict) (e : exn) :
  get_query self query options = Exc e -> e = TypeError.
Proof.
  unfold get_query. destruct (_parse_api_options self options true) eqn:Ea; simpl; [discriminate|].
  intros H; injection H as <-. by apply parse_api_options_exc in Ea.
Qed.

Lemma get_sends (self : client) (path : pyval) (query options : dict) (rs : list response) :
  let '(_, tr, _) := get self path query options rs in
  each_send (fun m url ro => m = "get" /\ exists q, get_query self query options = Ok q /\
    ro !! "params" = Some (PDict (dump_bool <$> q))) tr.
Proof.
  unfold get. destruct (get_query self query options) as [q|e] eqn:Eq; [|constructor].
  destruct (kwargs_clash _ options); [constructor|].
  pose proof (request_sends self "get" path (<["params" := PDict q]> options) rs) as Hs.
  destruct (request _ _ _ _ rs) as [[out tr] rest].
  eapply Forall_impl; [exact Hs|]. intros [m url ro|v]; [|done].
  intros (-> & Hro & _). split; [done|]. exists q. split; [done|].
  apply parse_request_options_spec in Hro as (_ & _ & Hp). apply Hp.
  rewrite merge_options_idem, merge_options_lookup, lookup_insert_eq. done.
Qed.

(** X5. Every transport call of [get] carries a [params] dict in which each
    key of the caller's query has the query's value, a boolean being sent as
    its JSON text: the query takes precedence over the options. *)
Theorem get_sends_query_values (self : client) (path : pyval) (query options : dict)
    (rs : list response) :
  let '(_, tr, _) := get self path query options rs in
  each_send (fun _ _ ro => exists params, ro !! "params" = Some (PDict params) /\
    forall k v, query !! k = Some v -> params !! k = Some (dump_bool v)) tr.
Proof.
  pose proof (get_sends self path query options rs) as Hg.
  destruct (get self path query options rs) as [[out tr] rest].
  eapply Forall_impl; [exact Hg|]. intros [m url ro|v]; [|done].
  intros (_ & q & Hq & Hp). eexists; split; [exact Hp|].
  intros k v Hk. rewrite lookup_fmap, (get_query_spec _ _ _ _ k Hq), Hk. done.
Qed.

(** X6. For [limit], [offset] and [sync] absent from the query, the [params]
    of every call of [get] hold the call option's value, else the client
    option's (a boolean as JSON text), and nothing when neither sets it. *)
Theorem get_sends_paging_options (self : client) (path : pyval) (query options : dict)
    (rs : list response) :
  let '(_, tr, _) := get self path query options rs in
  each_send (fun _ _ ro => exists params, ro !! "params" = Some (PDict params) /\
    forall k, k ∈ ["limit"; "offset"; "sync"] -> query !! k = None ->
      params !! k = dump_bool <$> _merge_options self [options] !! k) tr.
Proof.
  pose proof (get_sends self path query options rs) as Hg.
  destruct (get self path query options rs) as [[out tr] rest].
  eapply Forall_impl; [exact Hg|]. intros [m url ro|v]; [|done].
  intros (_ & q & Hq & Hp). eexists; split; [exact Hp|].
  intros k Hk Hn. rewrite lookup_fmap, (get_query_spec _ _ _ _ k Hq), Hn.
  rewrite (bool_decide_eq_true_2 (k ∈ _)) by exact Hk.
  revert Hk. rewrite !elem_of_cons, elem_of_nil. intros [->|[->|[->|[]]]]; reflexivity.
Qed.

(** X7. A client built without [limit], called without [limit] in its options
    or its query, sends [limit=100] with every call of [get]. *)
Theorem get_sends_default_limit (co options query : dict) (path : pyval) (rs : list response) :
  co !! "limit" = None -> options !! "limit" = None -> query !! "limit" = None ->
  let '(_, tr, _) := get (Client co) path query options rs in
  each_send (fun _ _ ro => exists params, ro !! "params" = Some (PDict params) /\
    params !! "limit" = Some (PInt 100)) tr.
Proof.
  intros Hc Ho Hq.
  pose proof (get_sends (Client co) path query options rs) as Hg.
  destruct (get (Client co) path query options rs) as [[out tr] rest].
  eapply Forall_impl; [exact Hg|]. intros [m url ro|v]; [|done].
  intros (_ & q & Eq & Hp). eexists; split; [exact Hp|].
  rewrite lookup_fmap, (get_query_spec _ _ _ _ _ Eq), Hq.
  simpl. rewrite merge_options_lookup, Ho. simpl. rewrite _merge_two, Hc. reflexivity.
Qed.

(** X8. For [pretty], [fields] and [expand] (the query having no
    [opt_<key>]): a list value is sent as [opt_<key>] joined with commas, any
    other value is sent as is (a boolean as JSON text), an unset key sends
    nothing. *)
Theorem get_sends_api_options (self : client) (path : pyval) (query options : dict)
    (rs : list response) :
  let '(_, tr, _) := get self path query options rs in
  each_send (fun _ _ ro => exists params, ro !! "params" = Some (PDict params) /\
    forall key, key ∈ api_keys -> query !! String.append "opt_" key = None ->
      (forall l s, _merge_options self [options] !! key = Some (PList l) ->
                   join_strs l = Ok s -> params !! String.append "opt_" key = Some (PStr s)) /\
      (forall v, _merge_options self [options] !! key = Some v -> (forall l, v <> PList l) ->
                 params !! String.append "opt_" key = Some (dump_bool v)) /\
      (_merge_options self [options] !! key = None ->
                 params !! String.append "opt_" key = None)) tr.
Proof.
  pose proof (get_sends self path query options rs) as Hg.
  destruct (get self path query options rs) as [[out tr] rest].
  eapply Forall_impl; [exact Hg|]. intros [m url ro|v]; [|done].
  intros (_ & q & Hq & Hp). eexists; split; [exact Hp|].
  intros key Hk Hn. rewrite lookup_fmap, (get_query_spec _ _ _ _ _ Hq), Hn.
  unfold api_keys in Hk. rewrite !elem_of_cons, elem_of_nil in Hk.
  destruct Hk as [->|[->|[->|[]]]];
    repeat case_bool_decide; try discriminate;
    try (exfalso; match goal with H : ¬ _ |- _ => apply H; reflexivity end).
  all: split; [|split].
  all: try (intros l s Hl Hs; rewrite Hl; unfold api_value; rewrite Hs; reflexivity).
  all: try (intros v Hl Hv; rewrite Hl; destruct v; try reflexivity; by destruct (Hv l)).
  all: intros Hl; rewrite Hl; reflexivity.
Qed.

(** X9. [get] sends no other parameter: a key the query lacks that is not
    [limit], [offset], [sync], [opt_pretty], [opt_fields] or [opt_expand] is
    absent from [params], whatever the options hold. *)
Theorem get_sends_no_other_params (self : client) (path : pyval) (query options : dict)
    (rs : list response) :
  let '(_, tr, _) := get self path query options rs in
  each_send (fun _ _ ro => exists params, ro !! "params" = Some (PDict params) /\
    forall k, query !! k = None ->
      k ∉ ["limit"; "offset"; "sync"; "opt_pretty"; "opt_fields"; "opt_expand"] ->
      params !! k = None) tr.
Proof.
  pose proof (get_sends self path query options rs) as Hg.
  destruct (get self path query options rs) as [[out tr] rest].
  eapply Forall_impl; [exact Hg|]. intros [m url ro|v]; [|done].
  intros (_ & q & Hq & Hp). eexists; split; [exact Hp|].
  intros k Hn Hk. rewrite lookup_fmap, (get_query_spec _ _ _ _ _ Hq), Hn.
  rewrite !not_elem_of_cons in Hk.
  destruct Hk as (H1 & H2 & H3 & H4 & H5 & H6 & _).
  rewrite !bool_decide_eq_false_2; [reflexivity| |done..].
  rewrite !elem_of_cons, elem_of_nil. naive_solver.
Qed.

(** X10. When [pretty], [fields] or [expand] resolves to a list with a
    non-string element, [get] raises [TypeError] (from [','.join]) before
    any transport call. *)
Theorem get_api_option_not_string_raises (self : client) (path : pyval) (query options : dict)
    (rs : list response) (key : string) (l : list pyval) :
  key ∈ api_keys -> _merge_options self [options] !! key = Some (PList l) ->
  (exists x, x ∈ l /\ forall s, x <> PStr s) ->
  get self path query options rs = (Raised TypeError, [], rs).
Proof.
  intros Hk Hl Hx. unfold get, get_query.
  rewrite (parse_api_options_join_error _ _ _ _ Hk Hl Hx). reflexivity.
Qed.

(** X11. A [params] keyword given to [get] raises [TypeError] (a repeated
    keyword in the call of [request]) before any transport call. *)
Theorem get_params_option_raises (self : client) (path : pyval) (query options : dict)
    (rs : list response) (v : pyval) :
  options !! "params" = Some v ->
  get self path query options rs = (Raised TypeError, [], rs).
Proof.
  intros Hv. unfold get.
  destruct (get_query self query options) as [q|e] eqn:Eq.
  - unfold kwargs_clash. simpl. rewrite Hv.
    rewrite (bool_decide_eq_true_2 (is_Some (Some v))) by eauto.
    rewrite !orb_true_r. reflexivity.
  - by rewrite (get_query_exc _ _ _ _ Eq).
Qed.

(** What [post] and [put] send, for a method name [meth]. *)
Lemma write_sends (json_dumps : pyval -> string) (self : client) (meth : string)
    (path data : pyval) (options : dict) (rs : list response) :
  let api := _select_options self options api_keys in
  let body := if bool_decide (0 < size api)%nat
              then <["options" := PDict api]> {["data" := data]} else {["data" := data]} in
  let '(_, tr, _) :=
    if kwargs_clash ["self"; "method"; "path"; "data"; "headers"] options
    then (Raised TypeError, [], rs)
    else request self meth path
           (<["data" := PStr (json_dumps (PDict body))]>
              (<["headers" := PDict content_type_json]> options)) rs in
  each_send (fun m _ ro => m = meth /\
    ro !! "headers" = Some (PDict content_type_json) /\
    exists body, ro !! "data" = Some (PStr (json_dumps (PDict body))) /\
      body !! "data" = Some data /\
      (forall k, k <> "data" -> k <> "options" -> body !! k = None) /\
      (body !! "options" = None <->
         forall key, key ∈ api_keys -> _merge_options self [options] !! key = None) /\
      (forall v, body !! "options" = Some v -> exists d, v = PDict d /\
         forall k, d !! k = if bool_decide (k ∈ api_keys)
                            then _merge_options self [options] !! k else None)) tr.
Proof.
  intros api body. destruct (kwargs_clash _ options); [constructor|].
  pose proof (request_sends self meth path
    (<["data" := PStr (json_dumps (PDict body))]>
       (<["headers" := PDict content_type_json]> options)) rs) as Hs.
  destruct (request _ _ _ _ rs) as [[out tr] rest].
  eapply Forall_impl; [exact Hs|]. intros [m url ro|v]; [|done].
  intros (-> & Hro & _). apply parse_request_options_spec in Hro as (Hh & Hd & _).
  rewrite merge_options_idem, merge_options_lookup in Hh, Hd.
  rewrite lookup_insert_ne, lookup_insert_eq in Hh by done.
  rewrite lookup_insert_eq in Hd.
  split; [done|]. split; [done|]. exists body. split; [done|].
  assert (Hapi : forall k, api !! k = if bool_decide (k ∈ api_keys)
                                      then _merge_options self [options] !! k else None)
    by (intros k; apply select_options_lookup).
  assert (Hempty : api = ∅ <-> forall key, key ∈ api_keys -> _merge_options self [options] !! key = None).
  { split.
    - intros Ha key Hk. specialize (Hapi key). rewrite Ha, lookup_empty in Hapi.
      rewrite bool_decide_eq_true_2 in Hapi by done. done.
    - intros Hn. apply map_eq. intros k. rewrite Hapi, lookup_empty.
      case_bool_decide; auto. }
  unfold body. case_bool_decide as Hsz.
  - assert (api <> ∅) as Hne by (intros ->; rewrite map_size_empty in Hsz; lia).
    split; [by rewrite lookup_insert_ne, lookup_singleton_eq|].
    split; [intros k H1 H2; by rewrite lookup_insert_ne, lookup_singleton_ne|].
    split.
    + rewrite lookup_insert_eq. split; [discriminate|]. intros Hn. by apply Hempty in Hn.
    + intros v. rewrite lookup_insert_eq. intros [= <-]. eauto.
  - assert (api = ∅) as Ha.
    { apply map_size_empty_iff. lia. }
    split; [by rewrite lookup_singleton_eq|].
    split; [intros k H1 H2; by rewrite lookup_singleton_ne|].
    split.
    + rewrite lookup_singleton_ne by done. split; [|done]. intros _. by apply Hempty.
    + intros v. rewrite lookup_singleton_ne by done. discriminate.
Qed.

(** X12. [post] and [put] send, as [data], the JSON text of a body that holds
    [data] and, exactly when [pretty], [fields] or [expand] is set in the
    client or call options, an [options] entry with those values; the
    [headers] sent are [{'content-type': 'application/json'}], whatever the
    client's [headers] option. *)
Theorem post_put_send_json_body (json_dumps : pyval -> string) (self : client)
    (path data : pyval) (options : dict) (rs : list response) :
  (let '(_, tr, _) := post json_dumps self path data options rs in
   each_send (fun m _ ro => m = "post" /\
     ro !! "headers" = Some (PDict content_type_json) /\
     exists body, ro !! "data" = Some (PStr (json_dumps (PDict body))) /\
       body !! "data" = Some data /\
       (forall k, k <> "data" -> k <> "options" -> body !! k = None) /\
       (body !! "options" = None <->
          forall key, key ∈ api_keys -> _merge_options self [options] !! key = None) /\
       (forall v, body !! "options" = Some v -> exists d, v = PDict d /\
          forall k, d !! k = if bool_decide (k ∈ api_keys)
                             then _merge_options self [options] !! k else None)) tr) /\
  (let '(_, tr, _) := put json_dumps self path data options rs in
   each_send (fun m _ ro => m = "put" /\
     ro !! "headers" = Some (PDict content_type_json) /\
     exists body, ro !! "data" = Some (PStr (json_dumps (PDict body))) /\
       body !! "data" = Some data /\
       (forall k, k <> "data" -> k <> "options" -> body !! k = None) /\
       (body !! "options" = None <->
          forall key, key ∈ api_keys -> _merge_options self [options] !! key = None) /\
       (forall v, body !! "options" = Some v -> exists d, v = PDict d /\
          forall k, d !! k = if bool_decide (k ∈ api_keys)
                             then _merge_options self [options] !! k else None)) tr).
Proof.
  split; [apply (write_sends json_dumps self "post")|apply (write_sends json_dumps self "put")].
Qed.

(** X13. A [method] or [headers] keyword given to [post] or [put] raises
    [TypeError] before any transport call. *)
Theorem post_put_headers_option_raises (json_dumps : pyval -> string) (self : client)
    (path data : pyval) (options : dict) (rs : list response) (k : string) (v : pyval) :
  k ∈ ["method"; "headers"] -> options !! k = Some v ->
  post json_dumps self path data options rs = (Raised TypeError, [], rs) /\
  put json_dumps self path data options rs = (Raised TypeError, [], rs).
Proof.
  intros Hk Hv.
  assert (kwargs_clash ["self"; "method"; "path"; "data"; "headers"] options = true) as Hc.
  { unfold kwargs_clash. apply existsb_exists. exists k. split.
    - revert Hk. rewrite !elem_of_cons, elem_of_nil. simpl. intuition.
    - rewrite Hv. by apply bool_decide_eq_true_2. }
  unfold post, put. rewrite Hc. done.
Qed.

Lemma page_next_inv (cl : client) (path : pyval) (query : dict) (it : page_iter)
    (rs : list response) :
  page_iter_inv cl path query it ->
  let '(_, it', _, _) := page_next it rs in page_iter_inv cl path query it'.
Proof.
  intros (Hc & Hp & Hq & Hf). unfold page_next.
  destruct (py_is_none (pi_next_page it)); [done|].
  unfold page_fetch.
  assert (page_iter_inv cl path query
            (if py_eq_false (pi_next_page it) then it
             else set_pi_options it (delete "offset" (pi_options it)))) as Hi.
  { destruct (py_eq_false _); [done|].
    unfold page_iter_inv; simpl. rewrite lookup_delete_ne by done. done. }
  destruct (py_eq_false (pi_next_page it)).
  - destruct (call_get _ _ _ _ rs) as [[o tr] rest].
    destruct o as [result| |]; [|done|done].
    destruct (py_dict_get result "next_page" PNone); [|done].
    by destruct Hi as (? & ? & ? & ?).
  - destruct (getitem (pi_next_page it) "path") as [p|e]; [|done]. simpl.
    destruct (call_get _ _ _ _ rs) as [[o tr] rest].
    destruct o as [result| |]; [|done|done].
    destruct (py_dict_get result "next_page" PNone); [|done].
    by destruct Hi as (? & ? & ? & ?).
Qed.

Lemma page_steps_inv (cl : client) (path : pyval) (query : dict) (n : nat) :
  forall (it : page_iter) (rs : list response),
  page_iter_inv cl path query it ->
  let '(_, _, it', _, _) := page_steps n it rs in page_iter_inv cl path query it'.
Proof.
  induction n as [|n IH]; intros it rs Hi; simpl; [done|].
  pose proof (page_next_inv cl path query it rs Hi) as Hn.
  destruct (page_next it rs) as [[[o it1] tr] rest].
  destruct o; [|done|done].
  specialize (IH it1 rest Hn).
  destruct (page_steps n it1 rest) as [[[[pages fin] it2] tr'] rest']. done.
Qed.

(** X14. Over any number of steps the page iterator keeps its client, path
    and query, and its options keep [full_payload = True], so every [get]
    it makes returns the whole envelope. *)
Theorem page_iterator_keeps_full_payload (cl : client) (path : pyval) (query options : dict)
    (n : nat) (rs : list response) :
  let '(_, _, it', _, _) := page_steps n (_PageIterator cl path query options) rs in
  pi_client it' = cl /\ pi_path it' = path /\ pi_query it' = query /\
  pi_options it' !! "full_payload" = Some (PBool true).
Proof.
  apply (page_steps_inv cl path query n). unfold page_iter_inv. simpl.
  split; [done|]. split; [done|]. split; [done|]. rewrite _merge_two. done.
Qed.

(** X15. A response whose status maps to a non-retryable error class is
    raised right after that one call, with no sleep, whatever the [retries]
    option (even [True]). *)
Theorem request_non_retryable_raises (self : client) (m : string) (p : pyval) (o : dict)
    (rc : request_cfg) (c : counter) (d : pyval) (r : response) (rs : list response)
    (k : errkind) :
  request_setup self m p o = Ok (rc, c, d) ->
  STATUS_MAP (status_code r) = Some k -> is_retryable k = false ->
  request self m p o (r :: rs) =
    (Raised (AsanaError k r), [Send m (rc_url rc) (rc_request_options rc)], rs).
Proof.
  intros Hs Hk Hr. destruct (request_setup_spec _ _ _ _ _ _ _ Hs) as (Hm & _).
  unfold request. rewrite Hs. simpl. rewrite Hk, Hr, Hm. reflexivity.
Qed.

(** X16. With [retries] set to [False] or to a number [<= 0], a classified
    failure is raised right after that one call, with no sleep. *)
Theorem request_no_retry_budget (self : client) (m : string) (p : pyval) (o : dict)
    (rc : request_cfg) (c : counter) (d : pyval) (r : response) (rs : list response)
    (k : errkind) (v : pyval) :
  request_setup self m p o = Ok (rc, c, d) ->
  _merge_options self [o] !! "retries" = Some v ->
  v = PBool false \/ (exists z, v = PInt z /\ z <= 0) \/
    (exists f, v = PFloat f /\ (f <=? 0)%float = true) ->
  STATUS_MAP (status_code r) = Some k ->
  request self m p o (r :: rs) =
    (Raised (AsanaError k r), [Send m (rc_url rc) (rc_request_options rc)], rs).
Proof.
  intros Hs Hv Hcase Hk.
  destruct (request_setup_spec _ _ _ _ _ _ _ Hs) as (Hm & _).
  destruct (request_setup_ok _ _ _ _ _ _ _ Hs) as (_ & _ & (r' & Hr' & Hc) & _).
  rewrite Hv in Hr'. injection Hr' as <-.
  assert (retries_gt0 c = Ok false) as Hgt.
  { destruct Hcase as [->|[(z & -> & Hz)|(f & -> & Hf)]]; subst c; simpl.
    - reflexivity.
    - rewrite (proj2 (Z.eqb_neq z 1)) by lia. simpl. f_equal. apply Z.ltb_ge. lia.
    - destruct (float_le0 f Hf) as [H0 H1]. rewrite H1. simpl. rewrite H0. reflexivity. }
  unfold request. rewrite Hs. simpl. rewrite Hk, Hm.
  destruct (is_retryable k); [|reflexivity]. rewrite Hgt. reflexivity.
Qed.

(** X17. With retries left and a negative [retry_delay] that [time.sleep]
    can convert (at least [-2^63] ns), the first retryable failure that is
    not a rate limit ends [request] with [ValueError] from [time.sleep],
    after that one call. *)
Theorem request_negative_retry_delay_raises (self : client) (m : string) (p : pyval) (o : dict)
    (rc : request_cfg) (c : counter) (d : pyval) (r : response) (rs : list response)
    (k : errkind) (v : pyval) :
  request_setup self m p o = Ok (rc, c, d) ->
  _merge_options self [o] !! "retries" = Some v ->
  v = PBool true \/ (exists z, v = PInt z /\ 0 < z) ->
  (exists f, d = PFloat f /\ (-9223372036854775808 <=? f * 1e9)%float = true /\
             (f * 1e9 <? 0)%float = true) \/
    (exists z, d = PInt z /\ -9223372036 <= z < 0) ->
  STATUS_MAP (status_code r) = Some k -> is_retryable k = true -> is_rate_limit k = false ->
  request self m p o (r :: rs) =
    (Raised ValueError, [Send m (rc_url rc) (rc_request_options rc)], rs).
Proof.
  intros Hs Hv Hcase Hd Hk Hr Hrl.
  destruct (request_setup_spec _ _ _ _ _ _ _ Hs) as (Hm & _).
  destruct (request_setup_ok _ _ _ _ _ _ _ Hs) as (_ & _ & (r' & Hr' & Hc) & _).
  rewrite Hv in Hr'. injection Hr' as <-.
  assert (exists c', retries_gt0 c = Ok true /\ retries_dec c = Ok c') as (c' & Hgt & Hdec).
  { destruct Hcase as [->|(z & -> & Hz)]; subst c; simpl; [eauto|].
    destruct (z =? 1); simpl; [eauto|]. rewrite (proj2 (Z.ltb_lt 0 z)) by lia. eauto. }
  assert (py_sleep d = Exc ValueError) as Hsl.
  { destruct Hd as [(f & -> & H1 & H2)|(z & -> & Hz)]; unfold py_sleep.
    - cbv zeta. rewrite H1, (float_lt0_bound _ H2), H2. reflexivity.
    - unfold PY_TIME_BOUND. change (10 ^ 9) with 1000000000. change (2 ^ 63) with 9223372036854775808.
      repeat match goal with
             | |- context [Z.ltb ?a ?b] =>
                 let E := fresh in
                 destruct (Z.ltb a b) eqn:E; [apply Z.ltb_lt in E | apply Z.ltb_ge in E]
             end; simpl; first [lia | reflexivity]. }
  unfold request. rewrite Hs. simpl. rewrite Hk, Hr, Hgt, Hdec, Hrl, Hsl, Hm. reflexivity.
Qed.

Lemma get_sends_default_limit_witness :
  let '(_, tr, _) := get (Client ∅) (PStr "/tasks") ∅ ∅ [envelope [] PNone] in
  tr <> [] /\
  each_send (fun _ _ ro => exists params, ro !! "params" = Some (PDict params) /\
    params !! "limit" = Some (PInt 100)) tr.
Proof.
  pose proof (get_sends_default_limit ∅ ∅ ∅ (PStr "/tasks") [envelope [] PNone]
                eq_refl eq_refl eq_refl) as H.
  destruct (get (Client ∅) (PStr "/tasks") ∅ ∅ [envelope [] PNone]) as [[o tr] rest] eqn:E.
  split; [|exact H].
  vm_compute in E. injection E as _ <- _. discriminate.
Defined.

Lemma get_api_option_not_string_raises_witness :
  get (Client ∅) (PStr "/tasks") ∅ {["fields" := PList [PStr "name"; PInt 1]]} [] =
    (Raised TypeError, [], []).
Proof.
  apply (get_api_option_not_string_raises _ _ _ _ _ "fields" [PStr "name"; PInt 1]).
  - apply elem_of_cons; right; apply elem_of_cons; left; reflexivity.
  - reflexivity.
  - exists (PInt 1). split; [apply elem_of_cons; right; apply elem_of_cons; left; reflexivity
                            |discriminate].
Defined.

Lemma get_params_option_raises_witness :
  get (Client ∅) (PStr "/tasks") ∅ {["params" := PDict ∅]} [envelope [] PNone] =
    (Raised TypeError, [], [envelope [] PNone]).
Proof. apply (get_params_option_raises _ _ _ _ _ (PDict ∅)). reflexivity. Defined.

Lemma post_put_headers_option_raises_witness :
  let opts := {["headers" := PDict ∅]} in
  post (fun _ => "{}") (Client ∅) (PStr "/tasks") PNone opts [] = (Raised TypeError, [], []) /\
  put (fun _ => "{}") (Client ∅) (PStr "/tasks") PNone opts [] = (Raised TypeError, [], []).
Proof.
  apply (post_put_headers_option_raises _ _ _ _ _ _ "headers" (PDict ∅)).
  - apply elem_of_cons; right; apply elem_of_cons; left; reflexivity.
  - reflexivity.
Defined.

Lemma request_non_retryable_raises_witness :
  request (Client {["retries" := PBool true]}) "get" (PStr "/tasks") ∅ [r404; r500] =
    (Raised (AsanaError NotFoundError r404),
     [Send "get" (PStr "https://app.asana.com/api/1.0/tasks") ∅], [r500]).
Proof.
  eapply (request_non_retryable_raises _ _ _ _
            {| rc_method := "get"; rc_url := PStr "https://app.asana.com/api/1.0/tasks";
               rc_options := _merge_options (Client {["retries" := PBool true]}) [∅];
               rc_request_options := ∅ |}); reflexivity.
Defined.

Lemma request_no_retry_budget_witness :
  request (Client {["retries" := PInt 0]}) "get" (PStr "/tasks") ∅ [r500; r500] =
    (Raised (AsanaError ServerError r500),
     [Send "get" (PStr "https://app.asana.com/api/1.0/tasks") ∅], [r500]).
Proof.
  eapply (request_no_retry_budget _ _ _ _
            {| rc_method := "get"; rc_url := PStr "https://app.asana.com/api/1.0/tasks";
               rc_options := _merge_options (Client {["retries" := PInt 0]}) [∅];
               rc_request_options := ∅ |} _ _ _ _ _ (PInt 0)); [reflexivity|reflexivity| |reflexivity].
  right; left; exists 0; split; [reflexivity|lia].
Defined.

Lemma request_negative_retry_delay_raises_witness :
  request (Client {["retry_delay" := PFloat (-1.0)]}) "get" (PStr "/tasks") ∅ [r500; r500] =
    (Raised ValueError, [Send "get" (PStr "https://app.asana.com/api/1.0/tasks") ∅], [r500]).
Proof.
  eapply (request_negative_retry_delay_raises _ _ _ _
            {| rc_method := "get"; rc_url := PStr "https://app.asana.com/api/1.0/tasks";
               rc_options := _merge_options (Client {["retry_delay" := PFloat (-1.0)]}) [∅];
               rc_request_options := ∅ |} _ _ _ _ _ (PInt 5));
    [reflexivity|reflexivity| | |reflexivity|reflexivity|reflexivity].
  - right; exists 5; split; [reflexivity|lia].
  - left; exists (-1.0)%float; split; [reflexivity|split; reflexivity].
Defined.
